(** * RideOrNot: the commute weather assistant of [weather_logic.py]

    A shallow embedding of the forecast filtering, the safety assessment and
    the decision-tag protocol of [weather_logic.py], with the properties its
    specification states about them.

    Python values are modelled as the interpreter has them:
    - a [str] is a sequence of Unicode code points ([pystr]);
    - a JSON number is an [int] (unbounded) or a [float] (binary64);
    - a [dict] is an insertion-ordered association list with unique keys;
    - an exception that leaves a function is a [Raise] result. *)

From Stdlib Require Import ZArith NArith List Bool Lia String Ascii.
From Stdlib Require Import Uint63 PrimFloat DecimalString.
Import ListNotations.

Local Open Scope Z_scope.

(** ** Python strings *)

Module PyStr.

(** A code point of a Python [str]. *)
Definition char := N.

Definition pystr := list char.

(** The [str] written by an ASCII literal of the source. *)
Fixpoint py (s : string) : pystr :=
  match s with
  | EmptyString => []
  | String a rest => N_of_ascii a :: py rest
  end.

Definition LF : char := 10%N.
Definition CR : char := 13%N.

Fixpoint eqb (s t : pystr) : bool :=
  match s, t with
  | [], [] => true
  | a :: s', b :: t' => N.eqb a b && eqb s' t'
  | _, _ => false
  end.

(** [str.isspace] on one code point: the characters of bidirectional type
    WS, B or S and of category Zs. *)
Definition isspace (c : char) : bool :=
  ((9 <=? c) && (c <=? 13) || (28 <=? c) && (c <=? 32)
   || (c =? 133) || (c =? 160) || (c =? 5760)
   || (8192 <=? c) && (c <=? 8202)
   || (c =? 8232) || (c =? 8233) || (c =? 8239) || (c =? 8287)
   || (c =? 12288))%N.

(** The line boundaries of [str.splitlines]. *)
Definition islinebreak (c : char) : bool :=
  ((10 <=? c) && (c <=? 13) || (28 <=? c) && (c <=? 30)
   || (c =? 133) || (c =? 8232) || (c =? 8233))%N.

Fixpoint lstrip (s : pystr) : pystr :=
  match s with
  | [] => []
  | c :: rest => if isspace c then lstrip rest else s
  end.

Fixpoint rstrip (s : pystr) : pystr :=
  match s with
  | [] => []
  | c :: rest =>
      match rstrip rest with
      | [] => if isspace c then [] else [c]
      | kept => c :: kept
      end
  end.

(** [s.strip()] *)
Definition strip (s : pystr) : pystr := rstrip (lstrip s).

(** [s.splitlines()]: [cur] holds the characters of the line being read,
    last one first.  A line break closes the current line (a CR directly
    followed by LF is one break); text left at the end is a last line, and
    nothing is added after a final line break. *)
Fixpoint splitlines_from (cur : pystr) (s : pystr) : list pystr :=
  match s with
  | [] => match cur with [] => [] | _ => [rev cur] end
  | c :: rest =>
      if islinebreak c then
        rev cur ::
        match rest with
        | d :: rest' =>
            if (c =? CR)%N && (d =? LF)%N then splitlines_from [] rest'
            else splitlines_from [] rest
        | [] => []
        end
      else splitlines_from (c :: cur) rest
  end.

Definition splitlines (s : pystr) : list pystr := splitlines_from [] s.

(** [s.rsplit("\n", 1)[0]]: the text before the last LF, the whole text when
    it has none.  [before_last_LF] is [None] when [s] has no LF. *)
Fixpoint before_last_LF (s : pystr) : option pystr :=
  match s with
  | [] => None
  | c :: rest =>
      match before_last_LF rest with
      | Some head => Some (c :: head)
      | None => if (c =? LF)%N then Some [] else None
      end
  end.

Definition rsplit_LF_head (s : pystr) : pystr :=
  match before_last_LF s with
  | Some head => head
  | None => s
  end.

End PyStr.

Import PyStr.


(** ** Python numbers *)

Module PyNum.

(** A number decoded from JSON: an [int] or a [float]. *)
Inductive pynum : Type :=
| PyInt (z : Z)
| PyFloat (f : float).

(** The [float] equal to a small non-negative integer constant of the
    source (exact below 2^53). *)
Definition float_of_const (k : Z) : float := PrimFloat.of_uint63 (Uint63.of_Z k).

(** [x < k] for an [int] constant [k]: Python compares an [int] with a
    [float] by value, and every comparison with NaN is false. *)
Definition lt_const (x : pynum) (k : Z) : bool :=
  match x with
  | PyInt z => z <? k
  | PyFloat f => PrimFloat.ltb f (float_of_const k)
  end.

(** [x > k] *)
Definition gt_const (x : pynum) (k : Z) : bool :=
  match x with
  | PyInt z => k <? z
  | PyFloat f => PrimFloat.ltb (float_of_const k) f
  end.

(** [x >= k] *)
Definition ge_const (x : pynum) (k : Z) : bool :=
  match x with
  | PyInt z => k <=? z
  | PyFloat f => PrimFloat.leb (float_of_const k) f
  end.

(** [str(z)] for an [int]. *)
Definition int_str (z : Z) : pystr := py (NilZero.string_of_int (Z.to_int z)).

End PyNum.

Import PyNum.

(** ** Python dicts and exceptions *)

Module PyDict.

(** A [dict] keyed by [str]: the items in insertion order, keys unique. *)
Definition dict (V : Type) := list (pystr * V).

Fixpoint dict_get {V} (d : dict V) (k : pystr) : option V :=
  match d with
  | [] => None
  | (k', v) :: rest => if PyStr.eqb k' k then Some v else dict_get rest k
  end.

(** [d[k] = v]: an existing key keeps its place and takes the new value, a
    new key goes last. *)
Fixpoint dict_set {V} (d : dict V) (k : pystr) (v : V) : dict V :=
  match d with
  | [] => [(k, v)]
  | (k', v') :: rest =>
      if PyStr.eqb k' k then (k', v) :: rest else (k', v') :: dict_set rest k v
  end.

End PyDict.

Import PyDict.

(** The exceptions that can leave the functions modelled here. *)
Inductive exn : Type :=
| ValueError   (* [strptime] on a timestamp that does not match the format *)
| IndexError.  (* [[-1]] on an empty list *)

Inductive result (A : Type) : Type :=
| Ok (a : A)
| Raise (e : exn).

Arguments Ok {A} a.
Arguments Raise {A} e.

(** ** Data model *)

(** The fields of a forecast block that the program reads.  [visibility] and
    [rain] may be absent, and a [rain] object may lack its ["3h"] key. *)
Record RawForecastEntry : Type := {
  dt_txt : pystr;
  weather_description : pystr;
  main_temp : pynum;
  wind_speed : pynum;
  entry_visibility : option pynum;
  entry_rain : option (option pynum)
}.

(** The dict built by [simplify_forecast]. *)
Record SummaryRecord : Type := {
  description : pystr;
  temp : pynum;
  wind : pynum;
  visibility : pynum;
  rain : pynum
}.

(** The value of a [datetime.datetime]. *)
Record datetime : Type := {
  year : Z; month : Z; day : Z; hour : Z; minute : Z; second : Z
}.

(** ** Configuration constants *)

Definition COMMUTE_TARGETS : list pystr :=
  [py "06:00"; py "09:00"; py "12:00"; py "15:00"; py "18:00"].

Definition MIN_TEMP : Z := 5.
Definition MAX_WIND : Z := 20.
Definition BAD_WEATHER : list pystr := [py "snow"; py "thunderstorm"; py "hail"].
Definition DANGEROUS_RAIN : list pystr :=
  [py "heavy intensity rain"; py "very heavy rain"; py "extreme rain"].

(** ** Substring and membership tests *)

Fixpoint startswith (s prefix : pystr) : bool :=
  match prefix, s with
  | [], _ => true
  | p :: prefix', c :: s' => N.eqb c p && startswith s' prefix'
  | _ :: _, [] => false
  end.

(** [needle in hay] on two [str]. *)
Fixpoint str_contains (hay needle : pystr) : bool :=
  startswith hay needle ||
  match hay with
  | [] => false
  | _ :: hay' => str_contains hay' needle
  end.

(** [x in l] on a list of [str]. *)
Definition str_in (x : pystr) (l : list pystr) : bool :=
  existsb (PyStr.eqb x) l.

(** [strftime("%H:%M")]: hour and minute, two digits each. *)
Definition two_digits (n : Z) : pystr :=
  [Z.to_N (48 + n / 10); Z.to_N (48 + n mod 10)].

Definition strftime_HM (t : datetime) : pystr :=
  two_digits (hour t) ++ py ":" ++ two_digits (minute t).

Section Pipeline.

(** Library functions taken as given: [datetime.strptime] with the format
    ["%Y-%m-%d %H:%M:%S"] ([None] when it raises [ValueError]),
    [str.lower], and the text an f-string gives a [float]. *)
Variable strptime : pystr -> option datetime.
Variable lower : pystr -> pystr.
Variable float_str : float -> pystr.

(** ** Slot Matcher *)

(** The time-of-day label of an entry, as the loop body computes it. *)
Definition time_only (entry : RawForecastEntry) : option pystr :=
  match strptime (dt_txt entry) with
  | Some time_obj => Some (strftime_HM time_obj)
  | None => None
  end.

(** The loop of [match_time_slots], from the dict built so far. *)
Fixpoint match_loop (forecast : list RawForecastEntry) (target_times : list pystr)
    (results : dict RawForecastEntry) : result (dict RawForecastEntry) :=
  match forecast with
  | [] => Ok results
  | entry :: rest =>
      match time_only entry with
      | None => Raise ValueError
      | Some label =>
          if str_in label target_times
          then match_loop rest target_times (dict_set results label entry)
          else match_loop rest target_times results
      end
  end.

Definition match_time_slots (forecast : list RawForecastEntry)
    (target_times : list pystr) : result (dict RawForecastEntry) :=
  match_loop forecast target_times [].

(** Whether the time-of-day of [entry] is [label]. *)
Definition labelled (label : pystr) (entry : RawForecastEntry) : bool :=
  match time_only entry with
  | Some l => PyStr.eqb l label
  | None => false
  end.

(** The specification's reading of the result at [label]: the last entry of
    the forecast, in input order, whose time-of-day is [label]. *)
Fixpoint last_entry_at (label : pystr) (forecast : list RawForecastEntry)
    : option RawForecastEntry :=
  match forecast with
  | [] => None
  | entry :: rest =>
      match last_entry_at label rest with
      | Some later => Some later
      | None => if labelled label entry then Some entry else None
      end
  end.

(** ** Forecast Summarizer *)

Definition simplify_forecast (entry : RawForecastEntry) : SummaryRecord :=
  {| description := weather_description entry;
     temp := main_temp entry;
     wind := wind_speed entry;
     visibility :=
       match entry_visibility entry with
       | Some v => v
       | None => PyInt 10000
       end;
     rain :=
       match entry_rain entry with
       | Some (Some r) => r
       | Some None => PyInt 0
       | None => PyInt 0
       end |}.

Definition summarize_forecast (slots : dict RawForecastEntry) : dict SummaryRecord :=
  map (fun item => (fst item, simplify_forecast (snd item))) slots.

(** ** Safety Assessor *)

(** [f"{x}"] for a number. *)
Definition num_str (x : pynum) : pystr :=
  match x with
  | PyInt z => int_str z
  | PyFloat f => float_str f
  end.

(** The two characters the source has before [C] in the temperature
    reason. *)
Definition degree_sign : pystr := [172%N; 8734%N].

Definition reason_temp (time : pystr) (t : pynum) : pystr :=
  time ++ py ": Temperature too low (" ++ num_str t ++ degree_sign ++ py "C)".
Definition reason_wind (time : pystr) (w : pynum) : pystr :=
  time ++ py ": Wind speed too high (" ++ num_str w ++ py " m/s)".
Definition reason_weather (time weather : pystr) : pystr :=
  time ++ py ": Dangerous weather - " ++ weather.
Definition reason_visibility (time : pystr) (v : pynum) : pystr :=
  time ++ py ": Poor visibility (" ++ num_str v ++ py " m)".
Definition reason_rain (time : pystr) (r : pynum) : pystr :=
  time ++ py ": Heavy rain (" ++ num_str r ++ py " mm)".

(** The state of the loop: the [safe] flag and the [reasons] list. *)
Definition verdict : Type := (bool * list pystr)%type.

(** One [if]: when the rule fires, append the reason and clear [safe]. *)
Definition flag (fired : bool) (reason : pystr) (st : verdict) : verdict :=
  if fired then (false, snd st ++ [reason]) else st.

(** The body of the loop for one item of [summary]. *)
Definition assess_slot (time : pystr) (data : SummaryRecord) (st : verdict) : verdict :=
  let weather := lower (description data) in
  let st := flag (lt_const (temp data) MIN_TEMP) (reason_temp time (temp data)) st in
  let st := flag (gt_const (wind data) MAX_WIND) (reason_wind time (wind data)) st in
  let st := flag (existsb (str_contains weather) (BAD_WEATHER ++ DANGEROUS_RAIN))
                 (reason_weather time weather) st in
  let st := flag (lt_const (visibility data) 3000)
                 (reason_visibility time (visibility data)) st in
  (* rain >= 2.0 *)
  flag (ge_const (rain data) 2) (reason_rain time (rain data)) st.

Fixpoint assess_loop (summary : dict SummaryRecord) (st : verdict) : verdict :=
  match summary with
  | [] => st
  | (time, data) :: rest => assess_loop rest (assess_slot time data st)
  end.

Definition assess_weather_conditions (summary : dict SummaryRecord) : verdict :=
  assess_loop summary (true, []).

(** What one slot contributes when it is assessed on its own. *)
Definition slot_alone (time : pystr) (data : SummaryRecord) : verdict :=
  assess_slot time data (true, []).

(** The flag is clear exactly when a reason has been recorded; it holds at
    every point of the loop. *)
Definition coherent (st : verdict) : Prop := fst st = false <-> snd st <> [].

(** ** Decision Extractor *)

(** The branch of the [if]/[elif]/[else] on the decision line. *)
Inductive Decision : Type := SAFE | NOT_SAFE | UNCLEAR.

(** The subject lines, with the characters the source has before the
    words. *)
Definition subject_yes : pystr :=
  [63743; 252; 232; 231; 212; 8719; 232]%N ++ py " Ride Today: Yes".
Definition subject_no : pystr :=
  [8218; 246; 8224; 212; 8719; 232]%N ++ py " Ride Today: No".
Definition subject_unclear : pystr :=
  [8218; 246; 8224; 212; 8719; 232]%N ++ py " Ride Today: Unclear".

Definition unclear_note : pystr :=
  [LF; LF] ++ py "(Note: Ride safety could not be determined automatically.)".

(** [l[-1]] *)
Fixpoint last_item {A : Type} (l : list A) : result A :=
  match l with
  | [] => Raise IndexError
  | [x] => Ok x
  | _ :: rest => last_item rest
  end.

(** [ai_message.strip().splitlines()[-1].strip()] *)
Definition decision_line (ai_message : pystr) : result pystr :=
  match last_item (splitlines (strip ai_message)) with
  | Ok line => Ok (strip line)
  | Raise e => Raise e
  end.

Definition classify (line : pystr) : Decision :=
  if PyStr.eqb line (py "[SAFE]") then SAFE
  else if PyStr.eqb line (py "[NOT SAFE]") then NOT_SAFE
  else UNCLEAR.

Record Notification : Type := { subject : pystr; body : pystr }.

(** Lines 202 to 212 of [main]: the branch taken, and the subject and the
    message handed to [send_email]. *)
Definition extract_decision (ai_message : pystr) : result (Decision * Notification) :=
  match decision_line ai_message with
  | Raise e => Raise e
  | Ok line =>
      match classify line with
      | SAFE =>
          Ok (SAFE, {| subject := subject_yes;
                       body := strip (rsplit_LF_head ai_message) |})
      | NOT_SAFE =>
          Ok (NOT_SAFE, {| subject := subject_no;
                           body := strip (rsplit_LF_head ai_message) |})
      | UNCLEAR =>
          Ok (UNCLEAR, {| subject := subject_unclear;
                          body := ai_message ++ unclear_note |})
      end
  end.

(** ** The run *)

(** What a run does to the outside, in order. *)
Inductive event : Type :=
| FetchForecast
| MatchSlots
| GenerateText
| SendEmail (note : Notification).

(** What the text-generation call does: a completion, or any exception
    (with its text). *)
Inductive completion : Type :=
| Completed (content : pystr)
| Failed (error_text : pystr).

(** The outside of one run: the forecast request ([None] when it raises a
    [RequestException]; an answer that is not an object with a ["list"] is
    outside the model), and the text service's answer to the prompt built
    from a summary and its reasons. *)
Record World : Type := {
  weekday : Z;
  forecast_request : option (list RawForecastEntry);
  chat : dict SummaryRecord -> list pystr -> completion
}.

(** A computation that appends to the trace of events and may raise. *)
Definition run (A : Type) : Type := list event -> list event * result A.

Definition ret {A : Type} (a : A) : run A := fun tr => (tr, Ok a).

Definition bind {A B : Type} (c : run A) (k : A -> run B) : run B :=
  fun tr =>
    match c tr with
    | (tr', Ok a) => k a tr'
    | (tr', Raise e) => (tr', Raise e)
    end.

Definition emit (e : event) : run unit := fun tr => (tr ++ [e], Ok tt).

Definition lift {A : Type} (r : result A) : run A := fun tr => (tr, r).

Notation "x <- c ;; k" := (bind c (fun x => k))
  (at level 61, c at next level, right associativity).
Notation "c ;;; k" := (bind c (fun _ => k))
  (at level 61, right associativity).

Definition get_day_type (w : World) : pystr :=
  if weekday w <? 5 then py "weekday" else py "weekend".

Definition fetch_weather_forecast (w : World) : run (option (list RawForecastEntry)) :=
  emit FetchForecast ;;; ret (forecast_request w).

(** The call to the text service and what the function returns from it
    (lines 141 to 157).  The digest of lines 103 to 139, which stands before
    the [try], is outside the model: its numbers reach the text service only
    through [chat]. *)
Definition ai_generate_summary (w : World) (summary : dict SummaryRecord)
    (safe : bool) (reasons : list pystr) (is_weekday : bool) : run pystr :=
  emit GenerateText ;;;
  ret (match chat w summary reasons with
       | Completed content => strip content
       | Failed error_text => py "(AI summary failed): " ++ error_text
       end).

(** [send_email] catches every exception of the transport; building the
    message (lines 161 to 169) is outside the model. *)
Definition send_email (subject body : pystr) : run unit :=
  emit (SendEmail {| subject := subject; body := body |}).

Definition main (w : World) : run unit :=
  let day_type := get_day_type w in
  forecast_data <- fetch_weather_forecast w ;;
  match forecast_data with
  | None | Some [] =>
      send_email (py "Ride Assistant Error") (py "Could not retrieve forecast.")
  | Some forecast =>
      slots <- (emit MatchSlots ;;; lift (match_time_slots forecast COMMUTE_TARGETS)) ;;
      match slots with
      | [] =>
          send_email (py "Ride Assistant Error")
                     (py "No matching forecast slots found.")
      | _ =>
          let summary := summarize_forecast slots in
          let (safe, reasons) := assess_weather_conditions summary in
          ai_message <- ai_generate_summary w summary safe reasons
                          (PyStr.eqb day_type (py "weekday")) ;;
          outcome <- lift (extract_decision ai_message) ;;
          send_email (subject (snd outcome)) (body (snd outcome))
      end
  end.

End Pipeline.

(** ** Instances for running the model

    The properties below hold for every behaviour of the three library
    functions.  To run the model on concrete inputs they are instantiated on
    the fragment the weather provider uses. *)

Module Sample.

Definition digit (c : char) : option Z :=
  if ((48 <=? c) && (c <=? 57))%N then Some (Z.of_N c - 48) else None.

Fixpoint number (s : pystr) (acc : Z) : option Z :=
  match s with
  | [] => Some acc
  | c :: rest =>
      match digit c with
      | Some d => number rest (10 * acc + d)
      | None => None
      end
  end.

Definition leap (y : Z) : bool :=
  (y mod 4 =? 0) && (negb (y mod 100 =? 0) || (y mod 400 =? 0)).

Definition days_in_month (y m : Z) : Z :=
  if m =? 2 then (if leap y then 29 else 28)
  else if (m =? 4) || (m =? 6) || (m =? 9) || (m =? 11) then 30
  else 31.

Definition within (lo x hi : Z) : bool := (lo <=? x) && (x <=? hi).

(** [strptime] on the timestamps written with all their digits,
    ["YYYY-MM-DD HH:MM:SS"]; other texts are taken to be rejected. *)
Definition strptime_iso (s : pystr) : option datetime :=
  match s with
  | [y1; y2; y3; y4; 45%N; m1; m2; 45%N; d1; d2; 32%N;
     h1; h2; 58%N; n1; n2; 58%N; s1; s2] =>
      match number [y1; y2; y3; y4] 0, number [m1; m2] 0, number [d1; d2] 0,
            number [h1; h2] 0, number [n1; n2] 0, number [s1; s2] 0 with
      | Some y, Some m, Some d, Some h, Some n, Some sec =>
          if within 1 y 9999 && within 1 m 12 && within 1 d (days_in_month y m)
             && within 0 h 23 && within 0 n 59 && within 0 sec 59
          then Some {| year := y; month := m; day := d;
                       hour := h; minute := n; second := sec |}
          else None
      | _, _, _, _, _, _ => None
      end
  | _ => None
  end.

(** [str.lower] on ASCII text. *)
Definition lower_ascii (s : pystr) : pystr :=
  map (fun c => if ((65 <=? c) && (c <=? 90))%N then (c + 32)%N else c) s.

(** The text of a float that is a whole number of halves below 100, as
    Python prints it; [nan] stands for the others. *)
Definition float_str_halves (f : float) : pystr :=
  match find (fun k => PrimFloat.eqb f (PrimFloat.div (float_of_const k) 2%float))
             (map Z.of_nat (seq 0 200)) with
  | Some k => int_str (k / 2) ++ (if k mod 2 =? 0 then py ".0" else py ".5")
  | None => py "nan"
  end.

Definition entry_at (stamp : string) (t : pynum) (r : option (option pynum))
    : RawForecastEntry :=
  {| dt_txt := py stamp;
     weather_description := py "Clear sky";
     main_temp := t;
     wind_speed := PyFloat 5.5%float;
     entry_visibility := None;
     entry_rain := r |}.

(** A forecast with two blocks at 06:00, one outside the commute times and
    one at 18:00 with 2.0 mm of rain. *)
Definition forecast : list RawForecastEntry :=
  [ entry_at "2024-03-04 06:00:00" (PyFloat 3%float) None;
    entry_at "2024-03-04 03:00:00" (PyInt 9) None;
    entry_at "2024-03-04 18:00:00" (PyInt 12) (Some (Some (PyFloat 2%float)));
    entry_at "2024-03-05 06:00:00" (PyFloat 7.5%float) (Some None) ].

Definition world (request : option (list RawForecastEntry)) (answer : completion)
    : World :=
  {| weekday := 0; forecast_request := request; chat := fun _ _ => answer |}.

Definition main_iso (w : World) : list event * result unit :=
  main strptime_iso lower_ascii float_str_halves w [].

(** The summary of the slots matched in [forecast]. *)
Definition summary : dict SummaryRecord :=
  match match_time_slots strptime_iso forecast COMMUTE_TARGETS with
  | Ok slots => summarize_forecast slots
  | Raise _ => []
  end.

(** A record for a slot that [summary] does not have. *)
Definition snowy_noon : SummaryRecord :=
  {| description := py "Light SNOW";
     temp := PyInt 1;
     wind := PyFloat 24.5%float;
     visibility := PyInt 1200;
     rain := PyInt 0 |}.

End Sample.

(** ** Vocabulary of the properties *)

(** A number that is exactly the whole number [k], as an [int] or as a
    [float]. *)
Definition exactly (k : Z) (x : pynum) : Prop :=
  x = PyInt k \/ x = PyFloat (float_of_const k).

(** The line boundaries of [splitlines], by name. *)
Inductive linebreak : Type :=
| BreakLF | BreakCR | BreakCRLF | BreakVT | BreakFF
| BreakFS | BreakGS | BreakRS | BreakNEL | BreakLS | BreakPS.

Definition break_text (b : linebreak) : pystr :=
  match b with
  | BreakLF => [LF]
  | BreakCR => [CR]
  | BreakCRLF => [CR; LF]
  | BreakVT => [11%N]
  | BreakFF => [12%N]
  | BreakFS => [28%N]
  | BreakGS => [29%N]
  | BreakRS => [30%N]
  | BreakNEL => [133%N]
  | BreakLS => [8232%N]
  | BreakPS => [8233%N]
  end.

(** A text whose final line is [line]: the line alone, or the line after some
    text and a line break. *)
Definition ending_in (before : option (pystr * linebreak)) (line : pystr) : pystr :=
  match before with
  | None => line
  | Some (text, b) => text ++ break_text b ++ line
  end.

(** The branch the Decision Extractor takes on a text. *)
Definition decision_of (ai_message : pystr) : result Decision :=
  match extract_decision ai_message with
  | Ok outcome => Ok (fst outcome)
  | Raise e => Raise e
  end.

(** A line as the two tags are: it starts and ends with a character that is
    not white space and has no line break inside. *)
Definition starts_solid (line : pystr) : bool :=
  match line with
  | c :: _ => negb (isspace c)
  | [] => false
  end.

Definition no_linebreak (s : pystr) : bool :=
  forallb (fun c => negb (islinebreak c)) s.

Definition solid_line (line : pystr) : Prop :=
  starts_solid line = true /\ rstrip line = line /\ no_linebreak line = true.

Definition no_LF (s : pystr) : bool := forallb (fun c => negb (c =? LF)%N) s.

(** The notifications of a trace, and how often a stage was entered. *)
Fixpoint emails (trace : list event) : list Notification :=
  match trace with
  | [] => []
  | SendEmail note :: rest => note :: emails rest
  | _ :: rest => emails rest
  end.

Definition is_match (e : event) : bool :=
  match e with MatchSlots => true | _ => false end.

Definition is_generate (e : event) : bool :=
  match e with GenerateText => true | _ => false end.

Definition calls (stage : event -> bool) (trace : list event) : nat :=
  List.length (filter stage trace).

(** ** The trigger ([main.py]) *)

Section Trigger.

Variable strptime : pystr -> option datetime.
Variable lower : pystr -> pystr.
Variable float_str : float -> pystr.

(** [send_daily_weather_email] only calls [main]. *)
Definition send_daily_weather_email (w : World) : run unit :=
  main strptime lower float_str w.

Definition response_executed : pystr :=
  [9989%N] ++ py " Weather check executed and email sent.".

Definition response_weekend : pystr :=
  [8505%N; 65039%N] ++ py " Weekend: No email sent.".

(** [run_script], the handler of ["/run"]: [london_weekday] is
    [now.weekday()] in the Europe/London zone. *)
Definition run_script (london_weekday : Z) (w : World) : run pystr :=
  if london_weekday <? 5
  then bind (send_daily_weather_email w) (fun _ => ret response_executed)
  else ret response_weekend.

End Trigger.

(** ** The assessor, rule by rule *)

(** The keys of a dict, in iteration order. *)
Definition dict_keys {V : Type} (d : dict V) : list pystr := map fst d.

Section Rules.

Variable lower : pystr -> pystr.
Variable float_str : float -> pystr.

(** The five conditions of the loop body. *)
Definition too_cold (data : SummaryRecord) : bool := lt_const (temp data) MIN_TEMP.
Definition too_windy (data : SummaryRecord) : bool := gt_const (wind data) MAX_WIND.
Definition bad_weather (data : SummaryRecord) : bool :=
  existsb (str_contains (lower (description data))) (BAD_WEATHER ++ DANGEROUS_RAIN).
Definition poor_visibility (data : SummaryRecord) : bool :=
  lt_const (visibility data) 3000.
Definition heavy_rain (data : SummaryRecord) : bool := ge_const (rain data) 2.

(** A slot that no rule flags. *)
Definition slot_ok (data : SummaryRecord) : bool :=
  negb (too_cold data) && negb (too_windy data) && negb (bad_weather data)
  && negb (poor_visibility data) && negb (heavy_rain data).

(** The reasons of one slot, in the order of the rules. *)
Definition slot_reasons (time : pystr) (data : SummaryRecord) : list pystr :=
  (if too_cold data then [reason_temp float_str time (temp data)] else []) ++
  (if too_windy data then [reason_wind float_str time (wind data)] else []) ++
  (if bad_weather data
   then [reason_weather time (lower (description data))] else []) ++
  (if poor_visibility data
   then [reason_visibility float_str time (visibility data)] else []) ++
  (if heavy_rain data then [reason_rain float_str time (rain data)] else []).

End Rules.

(** ** The order of the slots *)

(** Record a label the first time it is seen. *)
Definition note_label (seen : list pystr) (label : pystr) : list pystr :=
  if str_in label seen then seen else seen ++ [label].

(** The labels of a list, each once, in the order of first appearance. *)
Definition first_seen (labels : list pystr) : list pystr :=
  fold_left note_label labels [].

Section Labels.

Variable strptime : pystr -> option datetime.

(** The labels of the entries of a forecast that are target times, in input
    order (an entry whose timestamp does not parse has none). *)
Definition target_labels (forecast : list RawForecastEntry)
    (target_times : list pystr) : list pystr :=
  flat_map
    (fun entry =>
       match time_only strptime entry with
       | Some label => if str_in label target_times then [label] else []
       | None => []
       end)
    forecast.

End Labels.

(** A text of white space only (the empty text included). *)
Definition blank (s : pystr) : bool := forallb isspace s.

(** ** The notifications of the run *)

(** The text [ai_generate_summary] returns for an answer of the text
    service. *)
Definition generated_text (answer : completion) : pystr :=
  match answer with
  | Completed content => strip content
  | Failed error_text => py "(AI summary failed): " ++ error_text
  end.

Definition no_forecast_note : Notification :=
  {| subject := py "Ride Assistant Error";
     body := py "Could not retrieve forecast." |}.

Definition no_slots_note : Notification :=
  {| subject := py "Ride Assistant Error";
     body := py "No matching forecast slots found." |}.

(** More inputs for running the model. *)
Module Demo.

(** A forecast with no block at a commute time. *)
Definition night_forecast : list RawForecastEntry :=
  [ Sample.entry_at "2024-03-04 00:00:00" (PyInt 4) None;
    Sample.entry_at "2024-03-04 03:00:00" (PyInt 3) None ].

(** A forecast whose second timestamp is not in the format. *)
Definition broken_forecast : list RawForecastEntry :=
  [ Sample.entry_at "2024-03-04 06:00:00" (PyInt 9) None;
    Sample.entry_at "tomorrow morning" (PyInt 9) None ].

(** The slots matched in [Sample.forecast]. *)
Definition slots : dict RawForecastEntry :=
  match match_time_slots Sample.strptime_iso Sample.forecast COMMUTE_TARGETS with
  | Ok found => found
  | Raise _ => []
  end.

(** A record on the three strict thresholds. *)
Definition on_thresholds : SummaryRecord :=
  {| description := py "Overcast clouds";
     temp := PyInt 5;
     wind := PyFloat 20%float;
     visibility := PyInt 3000;
     rain := PyFloat 1.5%float |}.

(** A record whose readings are not numbers. *)
Definition all_nan : SummaryRecord :=
  {| description := py "mist";
     temp := PyFloat nan;
     wind := PyFloat nan;
     visibility := PyFloat nan;
     rain := PyFloat nan |}.

Definition run_script_iso (london_weekday : Z) (w : World) : list event * result pystr :=
  run_script Sample.strptime_iso Sample.lower_ascii Sample.float_str_halves
    london_weekday w [].

End Demo.

(** * Properties *)

(** ** Safety Assessor *)

Section Assessor.

Variable lower : pystr -> pystr.
Variable float_str : float -> pystr.

Local Abbreviation assess := (assess_weather_conditions lower float_str).
Local Abbreviation slot := (assess_slot lower float_str).
Local Abbreviation loop := (assess_loop lower float_str).
Local Abbreviation slot_alone := (slot_alone lower float_str).

Lemma flag_split (fired : bool) (reason : pystr) (st : verdict) :
  flag fired reason st =
  (fst st && negb fired, snd st ++ (if fired then [reason] else [])).
Proof.
  destruct st as [safe reasons], fired; simpl.
  - now rewrite andb_false_r.
  - now rewrite andb_true_r, app_nil_r.
Qed.

Lemma slot_split (time : pystr) (data : SummaryRecord) (st : verdict) :
  slot time data st =
  (fst st && fst (slot_alone time data), snd st ++ snd (slot_alone time data)).
Proof.
  unfold slot_alone, assess_slot.
  rewrite !flag_split. simpl.
  rewrite <- !app_assoc, <- !andb_assoc. reflexivity.
Qed.

Lemma loop_split (summary : dict SummaryRecord) (st : verdict) :
  loop summary st =
  (fst st && fst (loop summary (true, [])), snd st ++ snd (loop summary (true, []))).
Proof.
  revert st. induction summary as [|[time data] rest IH]; intros st.
  - simpl. rewrite andb_true_r, app_nil_r. now destruct st.
  - simpl. rewrite IH, (IH (slot time data (true, []))).
    rewrite slot_split. simpl.
    now rewrite andb_assoc, app_assoc.
Qed.

Lemma assess_app (front back : dict SummaryRecord) :
  assess (front ++ back) =
  (fst (assess front) && fst (assess back), snd (assess front) ++ snd (assess back)).
Proof.
  unfold assess_weather_conditions.
  induction front as [|[time data] rest IH]; simpl.
  - now destruct (loop back (true, [])).
  - rewrite loop_split, (loop_split rest). simpl.
    rewrite IH. simpl.
    now rewrite andb_assoc, app_assoc.
Qed.

Lemma assess_one (time : pystr) (data : SummaryRecord) :
  assess [(time, data)] = slot_alone time data.
Proof. reflexivity. Qed.

Lemma flag_coherent (fired : bool) (reason : pystr) (st : verdict) :
  coherent st -> coherent (flag fired reason st).
Proof.
  unfold coherent, flag. destruct fired; [|tauto].
  intros _. simpl. split; [|reflexivity].
  intros _ H. now apply app_eq_nil in H as [_ H].
Qed.

Lemma slot_coherent (time : pystr) (data : SummaryRecord) (st : verdict) :
  coherent st -> coherent (slot time data st).
Proof. intros H. unfold assess_slot. now repeat apply flag_coherent. Qed.

Lemma loop_coherent (summary : dict SummaryRecord) (st : verdict) :
  coherent st -> coherent (loop summary st).
Proof.
  revert st. induction summary as [|[time data] rest IH]; intros st H; simpl.
  - exact H.
  - apply IH, slot_coherent, H.
Qed.

Lemma dict_set_new {V : Type} (d : dict V) (k : pystr) (v : V) :
  dict_get d k = None -> dict_set d k v = d ++ [(k, v)].
Proof.
  induction d as [|[k' v'] rest IH]; simpl; [reflexivity|].
  destruct (PyStr.eqb k' k); [discriminate|].
  intros H. now rewrite IH.
Qed.

(** C8: on an empty mapping the Safety Assessor returns [safe = True] and
    [reasons = []], with no error. *)
Theorem assess_empty :
  assess_weather_conditions lower float_str [] = (true, []).
Proof. reflexivity. Qed.

(** C4: for every mapping of slots to summary records, the returned [safe]
    flag is false if and only if the returned list of reasons is not
    empty. *)
Theorem assess_safe_iff_no_reasons (summary : dict SummaryRecord) :
  fst (assess_weather_conditions lower float_str summary) = false <->
  snd (assess_weather_conditions lower float_str summary) <> [].
Proof.
  apply (loop_coherent summary (true, [])).
  unfold coherent. simpl. split; [discriminate | congruence].
Qed.

(** C6: a record whose 3-hour rain is exactly 2.0 mm, at any slot of the
    mapping, gets a heavy-rain reason for its slot and makes [safe] false:
    the threshold is inclusive. *)
Theorem assess_rain_threshold_inclusive
    (summary : dict SummaryRecord) (time : pystr) (data : SummaryRecord) :
  In (time, data) summary ->
  exactly 2 (rain data) ->
  In (reason_rain float_str time (rain data))
     (snd (assess_weather_conditions lower float_str summary)) /\
  fst (assess_weather_conditions lower float_str summary) = false.
Proof.
  intros Hin Hrain.
  assert (Hge : ge_const (rain data) 2 = true)
    by (destruct Hrain as [-> | ->]; reflexivity).
  apply in_split in Hin as (front & back & ->).
  change ((time, data) :: back) with ([(time, data)] ++ back).
  rewrite !assess_app, assess_one. simpl.
  unfold slot_alone, assess_slot. rewrite Hge.
  set (st := flag (lt_const (visibility data) 3000) _ _).
  simpl. split.
  - apply in_or_app. right. apply in_or_app. left.
    apply in_or_app. right. now left.
  - now rewrite andb_false_r.
Qed.

(** C7: adding a record under a slot the mapping does not have yet never
    turns [safe] from false to true and keeps every reason of the original
    mapping. *)
Theorem assess_monotonic
    (summary : dict SummaryRecord) (time : pystr) (data : SummaryRecord) :
  dict_get summary time = None ->
  (fst (assess_weather_conditions lower float_str summary) = false ->
   fst (assess_weather_conditions lower float_str (dict_set summary time data))
   = false) /\
  (forall reason,
     In reason (snd (assess_weather_conditions lower float_str summary)) ->
     In reason (snd (assess_weather_conditions lower float_str
                       (dict_set summary time data)))).
Proof.
  intros Hnew. rewrite (dict_set_new _ _ _ Hnew), assess_app. simpl. split.
  - now intros ->.
  - intros reason Hin. apply in_or_app. now left.
Qed.

End Assessor.

(** ** Slot Matcher *)

Section Matcher.

Variable strptime : pystr -> option datetime.

Local Abbreviation time_only := (time_only strptime).
Local Abbreviation labelled := (labelled strptime).
Local Abbreviation last_entry_at := (last_entry_at strptime).
Local Abbreviation match_loop := (match_loop strptime).
Local Abbreviation match_time_slots := (match_time_slots strptime).

Lemma eqb_eq (s t : pystr) : PyStr.eqb s t = true <-> s = t.
Proof.
  revert t. induction s as [|a s IH]; intros [|b t]; simpl;
    try (split; [discriminate | congruence]); [tauto|].
  rewrite andb_true_iff, N.eqb_eq, IH. split.
  - now intros [-> ->].
  - intros H. now injection H.
Qed.

Lemma eqb_neq (s t : pystr) : PyStr.eqb s t = false <-> s <> t.
Proof.
  rewrite <- eqb_eq. destruct (PyStr.eqb s t); split; congruence.
Qed.

Lemma str_in_In (x : pystr) (l : list pystr) : str_in x l = true <-> In x l.
Proof.
  unfold str_in. rewrite existsb_exists. split.
  - intros (y & Hy & Heq). apply eqb_eq in Heq. now subst.
  - intros H. exists x. split; [exact H | now apply eqb_eq].
Qed.

Lemma dict_get_set {V : Type} (d : dict V) (k k' : pystr) (v : V) :
  dict_get (dict_set d k v) k' =
  if PyStr.eqb k k' then Some v else dict_get d k'.
Proof.
  induction d as [|[k0 v0] rest IH]; simpl; [reflexivity|].
  destruct (PyStr.eqb k0 k) eqn:E0; simpl.
  - apply eqb_eq in E0. subst k0. now destruct (PyStr.eqb k k').
  - rewrite IH. destruct (PyStr.eqb k0 k') eqn:E1; [|reflexivity].
    apply eqb_eq in E1. subst k'.
    destruct (PyStr.eqb k k0) eqn:E2; [|reflexivity].
    apply eqb_eq in E2. subst k0. now apply eqb_neq in E0.
Qed.

Lemma labelled_iff (label : pystr) (entry : RawForecastEntry) :
  labelled label entry = true <-> time_only entry = Some label.
Proof.
  unfold labelled. destruct (time_only entry) as [l|].
  - rewrite eqb_eq. split; congruence.
  - split; discriminate.
Qed.

Lemma last_entry_at_none (label : pystr) (forecast : list RawForecastEntry) :
  last_entry_at label forecast = None <->
  forall entry, In entry forecast -> time_only entry <> Some label.
Proof.
  induction forecast as [|e rest IH]; simpl.
  - split; [intros _ ? [] | reflexivity].
  - destruct (last_entry_at label rest) as [later|].
    + split; [discriminate|]. intros H.
      apply IH. intros entry Hin. apply H. now right.
    + destruct (labelled label e) eqn:El.
      * split; [discriminate|]. intros H. apply labelled_iff in El.
        exfalso. apply (H e); [now left | exact El].
      * split; [|reflexivity]. intros _ entry [<- | Hin].
        -- rewrite <- labelled_iff, El. discriminate.
        -- now apply IH.
Qed.

Lemma last_entry_at_some (label : pystr) (forecast : list RawForecastEntry)
    (entry : RawForecastEntry) :
  last_entry_at label forecast = Some entry ->
  In entry forecast /\ time_only entry = Some label.
Proof.
  induction forecast as [|e rest IH]; simpl; [discriminate|].
  destruct (last_entry_at label rest) as [later|].
  - intros H. injection H as <-. destruct IH as [Hin Ht]; [reflexivity|].
    split; [now right | exact Ht].
  - destruct (labelled label e) eqn:El; [|discriminate].
    intros H. injection H as <-. split; [now left | now apply labelled_iff].
Qed.

Lemma last_entry_at_split (label : pystr) (front back : list RawForecastEntry)
    (entry : RawForecastEntry) :
  time_only entry = Some label ->
  (forall later, In later back -> time_only later <> Some label) ->
  last_entry_at label (front ++ entry :: back) = Some entry.
Proof.
  intros Ht Hback. induction front as [|e rest IH]; simpl.
  - apply last_entry_at_none in Hback. rewrite Hback.
    apply labelled_iff in Ht. now rewrite Ht.
  - now rewrite IH.
Qed.

(** The loop returns when every timestamp parses, and the dict it returns
    holds, at a target label, the last entry with that label, and otherwise
    what it held before. *)
Lemma match_loop_spec (target_times : list pystr)
    (forecast : list RawForecastEntry) (results : dict RawForecastEntry) :
  Forall (fun entry => time_only entry <> None) forecast ->
  exists final,
    match_loop forecast target_times results = Ok final /\
    forall label, In label target_times ->
      dict_get final label =
      match last_entry_at label forecast with
      | Some entry => Some entry
      | None => dict_get results label
      end.
Proof.
  intros Hparse. revert results.
  induction Hparse as [|e rest He _ IH]; intros results; simpl.
  - exists results. split; [reflexivity|]. reflexivity.
  - destruct (time_only e) as [l|] eqn:Et; [clear He | congruence].
    unfold labelled. rewrite Et.
    destruct (str_in l target_times) eqn:Hin.
    + destruct (IH (dict_set results l e)) as (final & Hrun & Hget).
      exists final. split; [exact Hrun|].
      intros label Hlabel. rewrite (Hget label Hlabel), dict_get_set.
      destruct (last_entry_at label rest); [reflexivity|].
      now destruct (PyStr.eqb l label).
    + destruct (IH results) as (final & Hrun & Hget).
      exists final. split; [exact Hrun|].
      intros label Hlabel. rewrite (Hget label Hlabel).
      destruct (last_entry_at label rest); [reflexivity|].
      destruct (PyStr.eqb l label) eqn:El; [|reflexivity].
      apply eqb_eq in El. subst l.
      apply str_in_In in Hlabel. congruence.
Qed.

Lemma match_loop_ok_parses (target_times : list pystr)
    (forecast : list RawForecastEntry) (results final : dict RawForecastEntry) :
  match_loop forecast target_times results = Ok final ->
  Forall (fun entry => time_only entry <> None) forecast.
Proof.
  revert results. induction forecast as [|e rest IH]; intros results; simpl.
  - constructor.
  - destruct (time_only e) as [l|] eqn:Et; [|discriminate].
    destruct (str_in l target_times); intros Hrun;
      (constructor; [congruence | exact (IH _ Hrun)]).
Qed.


(** A label outside the target-time set never enters the result. *)
Lemma match_loop_only_targets (target_times : list pystr)
    (forecast : list RawForecastEntry) (results final : dict RawForecastEntry)
    (label : pystr) :
  match_loop forecast target_times results = Ok final ->
  ~ In label target_times ->
  dict_get final label = dict_get results label.
Proof.
  intros Hrun Hout. revert results Hrun.
  induction forecast as [|e rest IH]; intros results; simpl.
  - intros H. now injection H as <-.
  - destruct (time_only e) as [l|]; [|discriminate].
    destruct (str_in l target_times) eqn:Hin; intros Hrun.
    + rewrite (IH _ Hrun), dict_get_set.
      destruct (PyStr.eqb l label) eqn:El; [|reflexivity].
      apply eqb_eq in El. subst l. now apply str_in_In in Hin.
    + now apply IH.
Qed.

End Matcher.

(** ** Decision Extractor *)

Section StringFacts.

Lemma rstrip_spaces (w : pystr) : forallb isspace w = true -> rstrip w = [].
Proof.
  induction w as [|c w IH]; simpl; [reflexivity|].
  rewrite andb_true_iff. intros [Hc Hw]. now rewrite (IH Hw), Hc.
Qed.

Lemma rstrip_app_spaces (s w : pystr) :
  forallb isspace w = true -> rstrip (s ++ w) = rstrip s.
Proof.
  intros Hw. induction s as [|c s IH]; simpl.
  - now apply rstrip_spaces.
  - now rewrite IH.
Qed.

Lemma rstrip_app_keep (s t : pystr) :
  rstrip t <> [] -> rstrip (s ++ t) = s ++ rstrip t.
Proof.
  intros Ht. induction s as [|c s IH]; simpl; [reflexivity|].
  rewrite IH. destruct (s ++ rstrip t) eqn:E; [|reflexivity].
  now apply app_eq_nil in E as [_ E].
Qed.

Lemma lstrip_app (s t : pystr) :
  lstrip (s ++ t) = lstrip t \/ exists kept, lstrip (s ++ t) = kept ++ t.
Proof.
  induction s as [|c s IH]; simpl.
  - now left.
  - destruct (isspace c); [exact IH|].
    right. now exists (c :: s).
Qed.

Lemma starts_solid_lstrip (line w : pystr) :
  starts_solid line = true -> lstrip (line ++ w) = line ++ w.
Proof.
  destruct line as [|c line]; simpl; [discriminate|].
  now destruct (isspace c).
Qed.

Lemma solid_line_strip (line w : pystr) :
  solid_line line -> forallb isspace w = true -> strip (line ++ w) = line.
Proof.
  intros (Hhead & Htail & _) Hw. unfold strip.
  now rewrite (starts_solid_lstrip _ _ Hhead), (rstrip_app_spaces _ _ Hw).
Qed.

Lemma solid_line_nonempty (line : pystr) : solid_line line -> line <> [].
Proof. intros (Hhead & _) ->. discriminate. Qed.

Lemma last_item_cons {A : Type} (x : A) (l : list A) (y : A) :
  last_item l = Ok y -> last_item (x :: l) = Ok y.
Proof. destruct l; [discriminate | trivial]. Qed.

(** Text without a line break is one line. *)
Lemma splitlines_from_one (cur line : pystr) :
  no_linebreak line = true -> rev cur ++ line <> [] ->
  splitlines_from cur line = [rev cur ++ line].
Proof.
  revert cur. induction line as [|c line IH]; intros cur Hno Hne; simpl.
  - rewrite app_nil_r in *. destruct cur; [now simpl in Hne | reflexivity].
  - simpl in Hno. apply andb_true_iff in Hno as [Hc Hno].
    apply negb_true_iff in Hc. rewrite Hc.
    rewrite (IH (c :: cur) Hno); simpl; rewrite <- app_assoc; [reflexivity|].
    intros E. now apply app_eq_nil in E as [_ E].
Qed.

Lemma islinebreak_isspace (c : char) : islinebreak c = true -> isspace c = true.
Proof.
  unfold islinebreak, isspace.
  rewrite !orb_true_iff, !andb_true_iff, !N.leb_le, !N.eqb_eq. lia.
Qed.

Lemma break_text_last (b : linebreak) :
  exists front c, break_text b = front ++ [c] /\ islinebreak c = true.
Proof.
  destruct b; simpl;
    first [ now exists [], LF | now exists [], CR | now exists [CR], LF
          | now eexists [], _ ].
Qed.

(** The last line of a text that ends with a line break and a solid line is
    that line, whatever comes before. *)
Lemma splitlines_last (line : pystr) (b : char) :
  no_linebreak line = true -> starts_solid line = true -> islinebreak b = true ->
  forall (n : nat) (before cur : pystr), (List.length before <= n)%nat ->
    last_item (splitlines_from cur (before ++ b :: line)) = Ok line.
Proof.
  intros Hno Hhead Hb.
  assert (Hne : line <> []) by (intros ->; discriminate).
  assert (Hone : splitlines_from [] line = [line])
    by (apply (splitlines_from_one [] line Hno); exact Hne).
  assert (Hbase : forall cur, last_item (splitlines_from cur (b :: line)) = Ok line).
  { intros cur. cbn [splitlines_from]. rewrite Hb.
    destruct line as [|d line']; [congruence|].
    assert (Hd : (d =? LF)%N = false).
    { destruct (N.eqb_spec d LF) as [->|]; [discriminate Hhead | reflexivity]. }
    rewrite Hd, andb_false_r, Hone. reflexivity. }
  induction n as [|n IH]; intros before cur Hlen.
  - destruct before; [apply Hbase | simpl in Hlen; lia].
  - destruct before as [|c before]; [apply Hbase|].
    simpl in Hlen. cbn [app splitlines_from].
    destruct (islinebreak c).
    + apply last_item_cons.
      destruct before as [|d before]; cbn [app].
      * destruct ((c =? CR)%N && (b =? LF)%N).
        -- now rewrite Hone.
        -- apply Hbase.
      * destruct ((c =? CR)%N && (d =? LF)%N).
        -- apply IH. simpl in Hlen. lia.
        -- apply (IH (d :: before)). lia.
    + apply IH. lia.
Qed.

Lemma before_last_LF_none (s : pystr) : no_LF s = true -> before_last_LF s = None.
Proof.
  induction s as [|c s IH]; simpl; [reflexivity|].
  rewrite andb_true_iff. intros [Hc Hs]. rewrite (IH Hs).
  apply negb_true_iff in Hc. now rewrite Hc.
Qed.

Lemma rsplit_LF_head_app (before after : pystr) :
  no_LF after = true -> rsplit_LF_head (before ++ LF :: after) = before.
Proof.
  intros Hno. unfold rsplit_LF_head.
  assert (H : before_last_LF (before ++ LF :: after) = Some before).
  { induction before as [|c before IH]; simpl.
    - now rewrite (before_last_LF_none _ Hno).
    - now rewrite IH. }
  now rewrite H.
Qed.

Lemma rsplit_LF_head_none (s : pystr) : no_LF s = true -> rsplit_LF_head s = s.
Proof. intros H. unfold rsplit_LF_head. now rewrite before_last_LF_none. Qed.

(** The decision line of a text whose final line is a solid line followed
    by white space is that line. *)
Lemma decision_line_ending_in (before : option (pystr * linebreak)) (line w : pystr) :
  solid_line line -> forallb isspace w = true ->
  decision_line (ending_in before (line ++ w)) = Ok line.
Proof.
  intros Hsolid Hw. pose proof Hsolid as (Hhead & Htail & Hno).
  pose proof (solid_line_nonempty _ Hsolid) as Hne.
  assert (Hstrip : strip line = line)
    by (rewrite <- (app_nil_r line) at 1; now apply solid_line_strip).
  assert (Hsingle : last_item (splitlines line) = Ok line).
  { unfold splitlines. now rewrite (splitlines_from_one [] line Hno). }
  unfold decision_line. destruct before as [[text b]|]; cbn [ending_in].
  - destruct (break_text_last b) as (front & c & -> & Hc).
    replace (text ++ (front ++ [c]) ++ line ++ w)
      with ((text ++ front) ++ c :: line ++ w)
      by (now rewrite <- !app_assoc).
    set (pre := text ++ front).
    assert (Hs : strip (pre ++ c :: line ++ w) = line \/
                 exists kept, strip (pre ++ c :: line ++ w) = kept ++ c :: line).
    { unfold strip. destruct (lstrip_app pre (c :: line ++ w)) as [-> | (kept & ->)].
      - left. cbn [lstrip]. rewrite (islinebreak_isspace c Hc).
        now apply solid_line_strip.
      - right. exists kept.
        change (kept ++ c :: line ++ w) with (kept ++ (c :: line) ++ w).
        rewrite app_assoc, (rstrip_app_spaces _ _ Hw).
        change (kept ++ c :: line) with (kept ++ [c] ++ line).
        rewrite app_assoc, rstrip_app_keep; rewrite Htail; [|exact Hne].
        now rewrite <- app_assoc. }
    destruct Hs as [-> | (kept & ->)].
    + now rewrite Hsingle, Hstrip.
    + unfold splitlines.
      rewrite (splitlines_last line c Hno Hhead Hc (List.length kept) kept []); [|lia].
      now rewrite Hstrip.
  - rewrite (solid_line_strip _ _ Hsolid Hw). now rewrite Hsingle, Hstrip.
Qed.

End StringFacts.

Section Extractor.

Lemma tag_SAFE_solid : solid_line (py "[SAFE]").
Proof. repeat split. Qed.

Lemma tag_NOT_SAFE_solid : solid_line (py "[NOT SAFE]").
Proof. repeat split. Qed.

Lemma tag_lowercase_solid : solid_line (py "[safe]").
Proof. repeat split. Qed.

Lemma classify_SAFE (line : pystr) : classify line = SAFE <-> line = py "[SAFE]".
Proof.
  unfold classify. destruct (PyStr.eqb line (py "[SAFE]")) eqn:E.
  - apply eqb_eq in E. tauto.
  - apply eqb_neq in E.
    destruct (PyStr.eqb line (py "[NOT SAFE]")); split; congruence.
Qed.

Lemma classify_NOT_SAFE (line : pystr) :
  classify line = NOT_SAFE <-> line = py "[NOT SAFE]".
Proof.
  unfold classify. destruct (PyStr.eqb line (py "[SAFE]")) eqn:E.
  - apply eqb_eq in E. subst line. split; discriminate.
  - destruct (PyStr.eqb line (py "[NOT SAFE]")) eqn:E'.
    + apply eqb_eq in E'. tauto.
    + apply eqb_neq in E'. split; congruence.
Qed.

(** The subject lines are the words of the specification after a mark. *)
Lemma subjects_words :
  (exists mark, subject_yes = mark ++ py "Ride Today: Yes") /\
  (exists mark, subject_no = mark ++ py "Ride Today: No") /\
  (exists mark, subject_unclear = mark ++ py "Ride Today: Unclear").
Proof.
  repeat split.
  - now exists ([63743; 252; 232; 231; 212; 8719; 232; 32]%N).
  - now exists ([8218; 246; 8224; 212; 8719; 232; 32]%N).
  - now exists ([8218; 246; 8224; 212; 8719; 232; 32]%N).
Qed.

(** Every line but the two tags takes the [else] branch. *)
Lemma extract_unclear (ai_message line : pystr) :
  decision_line ai_message = Ok line ->
  line <> py "[SAFE]" -> line <> py "[NOT SAFE]" ->
  extract_decision ai_message =
  Ok (UNCLEAR, {| subject := subject_unclear;
                  body := ai_message ++ unclear_note |}).
Proof.
  intros Hline Hs Hn. unfold extract_decision. rewrite Hline.
  destruct (classify line) eqn:E; [| |reflexivity].
  - now apply classify_SAFE in E.
  - now apply classify_NOT_SAFE in E.
Qed.

(** A text that is empty once trimmed has no last line. *)
Lemma extract_blank (ai_message : pystr) :
  strip ai_message = [] -> extract_decision ai_message = Raise IndexError.
Proof.
  intros H. unfold extract_decision, decision_line. now rewrite H.
Qed.

(** A tag on a line of its own after a line feed: the decision is the
    tag's, and the body is the text before that line feed, trimmed. *)
Lemma extract_tag_after_text (text w : pystr) :
  forallb isspace w = true -> no_LF w = true ->
  extract_decision (text ++ LF :: py "[SAFE]" ++ w) =
    Ok (SAFE, {| subject := subject_yes; body := strip text |}) /\
  extract_decision (text ++ LF :: py "[NOT SAFE]" ++ w) =
    Ok (NOT_SAFE, {| subject := subject_no; body := strip text |}).
Proof.
  intros Hw Hlf. unfold extract_decision. split.
  - pose proof (decision_line_ending_in (Some (text, BreakLF)) _ w tag_SAFE_solid Hw)
      as Hline.
    cbn [ending_in break_text app] in Hline. rewrite Hline.
    change (classify (py "[SAFE]")) with SAFE. cbv iota.
    now rewrite rsplit_LF_head_app.
  - pose proof (decision_line_ending_in (Some (text, BreakLF)) _ w tag_NOT_SAFE_solid Hw)
      as Hline.
    cbn [ending_in break_text app] in Hline. rewrite Hline.
    change (classify (py "[NOT SAFE]")) with NOT_SAFE. cbv iota.
    now rewrite rsplit_LF_head_app.
Qed.

(** Without a line feed in the text, the body of a tagged text is the whole
    text, trimmed. *)
Lemma extract_without_LF (ai_message : pystr) :
  no_LF ai_message = true ->
  decision_of ai_message = Ok SAFE ->
  extract_decision ai_message =
  Ok (SAFE, {| subject := subject_yes; body := strip ai_message |}).
Proof.
  intros Hlf. unfold decision_of, extract_decision.
  destruct (decision_line ai_message) as [line|e]; [|discriminate].
  rewrite (rsplit_LF_head_none _ Hlf).
  destruct (classify line); simpl; congruence.
Qed.

(** C1, as amended: a text whose final line is "[safe]" is UNCLEAR, with
    the caveat appended; the final line is trimmed before it is compared,
    so a final line "[SAFE] " is SAFE; and the comparison of the trimmed
    line with the two tags is exact and case-sensitive. *)
Theorem decision_exact_after_trim (before : option (pystr * linebreak)) :
  extract_decision (ending_in before (py "[safe]")) =
    Ok (UNCLEAR, {| subject := subject_unclear;
                    body := ending_in before (py "[safe]") ++ unclear_note |}) /\
  decision_of (ending_in before (py "[SAFE] ")) = Ok SAFE /\
  (forall line, classify line = SAFE <-> line = py "[SAFE]") /\
  (forall line, classify line = NOT_SAFE <-> line = py "[NOT SAFE]").
Proof.
  split; [|split; [|split]].
  - apply (extract_unclear _ (py "[safe]")); [|discriminate|discriminate].
    rewrite <- (app_nil_r (py "[safe]")) at 1.
    now apply decision_line_ending_in; [apply tag_lowercase_solid|].
  - unfold decision_of, extract_decision.
    change (py "[SAFE] ") with (py "[SAFE]" ++ py " ").
    now rewrite (decision_line_ending_in before _ (py " ") tag_SAFE_solid).
  - apply classify_SAFE.
  - apply classify_NOT_SAFE.
Qed.

(** C1, as stated, fails: a text whose final line is "[SAFE] " is classified
    SAFE, not UNCLEAR. *)
Lemma trailing_space_tag_is_safe :
  extract_decision (ending_in (Some (py "Dry roads.", BreakLF)) (py "[SAFE] ")) =
    Ok (SAFE, {| subject := subject_yes; body := py "Dry roads." |}) /\
  decision_of (ending_in (Some (py "Dry roads.", BreakLF)) (py "[SAFE] ")) <> Ok UNCLEAR.
Proof. split; [reflexivity | discriminate]. Qed.

(** C3 at the text "[SAFE]": the decision is SAFE, and the body handed to
    the notifier is still the tag, not the (empty) text before it. *)
Theorem single_line_tag_not_removed :
  exists note,
    extract_decision (py "[SAFE]") = Ok (SAFE, note) /\
    subject note = subject_yes /\
    body note = py "[SAFE]" /\
    body note <> strip [].
Proof.
  eexists. split; [reflexivity|]. repeat split. discriminate.
Qed.

(** C10: a one-line text that is exactly a tag is classified by the tag,
    and its body is the tag itself. *)
Theorem single_line_tag_classified_and_kept :
  extract_decision (py "[SAFE]") =
    Ok (SAFE, {| subject := subject_yes; body := py "[SAFE]" |}) /\
  extract_decision (py "[NOT SAFE]") =
    Ok (NOT_SAFE, {| subject := subject_no; body := py "[NOT SAFE]" |}).
Proof. split; reflexivity. Qed.

End Extractor.

(** ** The run *)

Section Run.

Variable strptime : pystr -> option datetime.
Variable lower : pystr -> pystr.
Variable float_str : float -> pystr.

Local Abbreviation main := (main strptime lower float_str).

(** C9: when the forecast request fails, the run sends one notification,
    with the body "Could not retrieve forecast.", enters neither the slot
    matching nor the text generation, and returns normally. *)
Theorem fetch_failure_one_notification (w : World) :
  forecast_request w = None ->
  exists trace,
    main w [] = (trace, Ok tt) /\
    emails trace = [ {| subject := py "Ride Assistant Error";
                        body := py "Could not retrieve forecast." |} ] /\
    calls is_match trace = 0%nat /\
    calls is_generate trace = 0%nat.
Proof.
  intros Hfetch. eexists. split.
  - unfold main, fetch_weather_forecast, bind, emit, ret, send_email.
    rewrite Hfetch. reflexivity.
  - repeat split.
Qed.

(** In the run as modelled here, a run that returns has sent exactly one
    notification, and a run that ends with an exception has sent none. *)
Lemma main_outcomes (w : World) :
  exists trace outcome,
    main w [] = (trace, outcome) /\
    match outcome with
    | Ok _ => List.length (emails trace) = 1%nat
    | Raise _ => emails trace = []
    end.
Proof.
  unfold main, fetch_weather_forecast, ai_generate_summary, send_email,
    bind, emit, ret, lift.
  cbn [app].
  destruct (forecast_request w) as [[|entry forecast]|];
    try (do 2 eexists; split; [reflexivity | reflexivity]).
  destruct (match_time_slots strptime (entry :: forecast) COMMUTE_TARGETS)
    as [[|slot slots]|e];
    try (do 2 eexists; split; [reflexivity | reflexivity]).
  destruct (assess_weather_conditions lower float_str
              (summarize_forecast (slot :: slots))) as [safe reasons].
  cbn [app].
  destruct (extract_decision _) as [[decision note]|e];
    do 2 eexists; (split; [reflexivity | reflexivity]).
Qed.

End Run.

(** C2 at the empty text: the last-line lookup raises [IndexError], and a run
    whose text service answers with an empty text ends with that exception
    and no notification. *)
Theorem empty_text_raises_IndexError :
  extract_decision [] = Raise IndexError /\
  Sample.main_iso (Sample.world (Some Sample.forecast) (Completed [])) =
    ([FetchForecast; MatchSlots; GenerateText], Raise IndexError).
Proof. split; reflexivity. Qed.

(** ** The properties at concrete inputs *)

Lemma assess_rain_threshold_inclusive_witness :
  In (py "18:00", simplify_forecast (nth 2 Sample.forecast (Sample.entry_at "" (PyInt 0) None)))
     Sample.summary /\
  exactly 2 (PyFloat 2%float) /\
  In (py "18:00: Heavy rain (2.0 mm)")
     (snd (assess_weather_conditions Sample.lower_ascii Sample.float_str_halves
             Sample.summary)) /\
  fst (assess_weather_conditions Sample.lower_ascii Sample.float_str_halves
         Sample.summary) = false.
Proof.
  assert (Hin : In (py "18:00",
                    simplify_forecast
                      (nth 2 Sample.forecast (Sample.entry_at "" (PyInt 0) None)))
                   Sample.summary) by (right; left; reflexivity).
  assert (Hrain : exactly 2 (PyFloat 2%float)) by (right; reflexivity).
  split; [exact Hin | split; [exact Hrain|]].
  exact (assess_rain_threshold_inclusive Sample.lower_ascii Sample.float_str_halves
           Sample.summary (py "18:00") _ Hin Hrain).
Defined.

Lemma assess_monotonic_witness :
  dict_get Sample.summary (py "12:00") = None /\
  (fst (assess_weather_conditions Sample.lower_ascii Sample.float_str_halves
          Sample.summary) = false ->
   fst (assess_weather_conditions Sample.lower_ascii Sample.float_str_halves
          (dict_set Sample.summary (py "12:00") Sample.snowy_noon)) = false) /\
  (forall reason,
     In reason (snd (assess_weather_conditions Sample.lower_ascii
                       Sample.float_str_halves Sample.summary)) ->
     In reason (snd (assess_weather_conditions Sample.lower_ascii
                       Sample.float_str_halves
                       (dict_set Sample.summary (py "12:00") Sample.snowy_noon)))).
Proof.
  split; [reflexivity|].
  apply (assess_monotonic Sample.lower_ascii Sample.float_str_halves
           Sample.summary (py "12:00") Sample.snowy_noon).
  reflexivity.
Defined.


Lemma fetch_failure_one_notification_witness :
  forecast_request (Sample.world None (Completed (py "unused"))) = None /\
  exists trace,
    Sample.main_iso (Sample.world None (Completed (py "unused"))) = (trace, Ok tt) /\
    emails trace = [ {| subject := py "Ride Assistant Error";
                        body := py "Could not retrieve forecast." |} ] /\
    calls is_match trace = 0%nat /\
    calls is_generate trace = 0%nat.
Proof.
  split; [reflexivity|].
  apply (fetch_failure_one_notification Sample.strptime_iso Sample.lower_ascii
           Sample.float_str_halves (Sample.world None (Completed (py "unused")))).
  reflexivity.
Defined.

(** * Further properties of the code *)

(** ** Slot Matcher: errors, keys and order *)

Section MatcherKeys.

Variable strptime : pystr -> option datetime.

Local Abbreviation time_only := (time_only strptime).
Local Abbreviation match_loop := (match_loop strptime).
Local Abbreviation match_time_slots := (match_time_slots strptime).
Local Abbreviation target_labels := (target_labels strptime).

Lemma eqb_sym (s t : pystr) : PyStr.eqb s t = PyStr.eqb t s.
Proof.
  destruct (PyStr.eqb s t) eqn:E, (PyStr.eqb t s) eqn:E'; try reflexivity.
  - apply eqb_eq in E. apply eqb_neq in E'. congruence.
  - apply eqb_eq in E'. apply eqb_neq in E. congruence.
Qed.

Lemma match_loop_cases (target_times : list pystr)
    (forecast : list RawForecastEntry) (results : dict RawForecastEntry) :
  (Forall (fun entry => time_only entry <> None) forecast /\
   exists final, match_loop forecast target_times results = Ok final) \/
  (Exists (fun entry => time_only entry = None) forecast /\
   match_loop forecast target_times results = Raise ValueError).
Proof.
  revert results. induction forecast as [|e rest IH]; intros results; simpl.
  - left. split; [constructor | now exists results].
  - destruct (time_only e) as [l|] eqn:Et.
    + assert (He : time_only e <> None) by congruence.
      destruct (str_in l target_times).
      * destruct (IH (dict_set results l e)) as [[Hall Hok] | [Hex Hraise]].
        -- left. split; [now constructor | exact Hok].
        -- right. split; [now apply Exists_cons_tl | exact Hraise].
      * destruct (IH results) as [[Hall Hok] | [Hex Hraise]].
        -- left. split; [now constructor | exact Hok].
        -- right. split; [now apply Exists_cons_tl | exact Hraise].
    + right. split; [now apply Exists_cons_hd | reflexivity].
Qed.

Lemma parse_all_or_some_fails (forecast : list RawForecastEntry) :
  Forall (fun entry => time_only entry <> None) forecast ->
  Exists (fun entry => time_only entry = None) forecast -> False.
Proof.
  intros Hall Hex. apply Exists_exists in Hex as (e & Hin & He).
  rewrite Forall_forall in Hall. exact (Hall e Hin He).
Qed.

(** X1: the Slot Matcher raises [ValueError] exactly when some entry of the
    forecast has a timestamp that does not parse, whether or not that entry
    is at a target time; it returns a dict exactly when all of them parse. *)
Theorem match_time_slots_raises_iff
    (forecast : list RawForecastEntry) (target_times : list pystr) :
  (match_time_slots forecast target_times = Raise ValueError <->
   Exists (fun entry => time_only entry = None) forecast) /\
  ((exists results, match_time_slots forecast target_times = Ok results) <->
   Forall (fun entry => time_only entry <> None) forecast).
Proof.
  unfold match_time_slots.
  destruct (match_loop_cases target_times forecast [])
    as [[Hall (final & Hok)] | [Hex Hraise]]; rewrite ?Hok, ?Hraise.
  - split; split.
    + discriminate.
    + intros Hex. destruct (parse_all_or_some_fails forecast Hall Hex).
    + intros _. exact Hall.
    + intros _. now exists final.
  - split; split.
    + intros _. exact Hex.
    + reflexivity.
    + intros (results & H). discriminate.
    + intros Hall. destruct (parse_all_or_some_fails forecast Hall Hex).
Qed.

Lemma In_dict_set {V : Type} (d : dict V) (k l : pystr) (v x : V) :
  In (l, x) (dict_set d k v) -> In (l, x) d \/ (l = k /\ x = v).
Proof.
  induction d as [|[k' v'] rest IH]; simpl.
  - intros [H | []]. right. now injection H as <- <-.
  - destruct (PyStr.eqb k' k) eqn:E.
    + apply eqb_eq in E. subst k'. intros [H | H].
      * right. now injection H as <- <-.
      * left. now right.
    + intros [H | H].
      * left. now left.
      * destruct (IH H) as [Hin | Heq]; [left; now right | now right].
Qed.

Lemma match_loop_sound (target_times : list pystr)
    (forecast : list RawForecastEntry) (results final : dict RawForecastEntry)
    (label : pystr) (entry : RawForecastEntry) :
  match_loop forecast target_times results = Ok final ->
  In (label, entry) final ->
  In (label, entry) results \/
  (In label target_times /\ In entry forecast /\ time_only entry = Some label).
Proof.
  revert results. induction forecast as [|e rest IH]; intros results; simpl.
  - intros H. injection H as <-. now left.
  - destruct (time_only e) as [l|] eqn:Et; [|discriminate].
    destruct (str_in l target_times) eqn:Hin; intros Hrun Hfinal.
    + destruct (IH _ Hrun Hfinal) as [Hset | (Ht & He & Hl)].
      * apply In_dict_set in Hset as [Hold | [-> ->]]; [now left|].
        right. apply str_in_In in Hin. repeat split; [exact Hin | now left | exact Et].
      * right. repeat split; [exact Ht | now right | exact Hl].
    + destruct (IH _ Hrun Hfinal) as [Hold | (Ht & He & Hl)]; [now left|].
      right. repeat split; [exact Ht | now right | exact Hl].
Qed.

(** X2: every item of the dict the Slot Matcher returns is an entry of the
    forecast stored under its own time-of-day, and that label is one of the
    target times. *)
Theorem match_time_slots_sound
    (forecast : list RawForecastEntry) (target_times : list pystr)
    (results : dict RawForecastEntry) (label : pystr) (entry : RawForecastEntry) :
  match_time_slots forecast target_times = Ok results ->
  In (label, entry) results ->
  In label target_times /\ In entry forecast /\ time_only entry = Some label.
Proof.
  intros Hrun Hin.
  destruct (match_loop_sound target_times forecast [] results label entry Hrun Hin)
    as [[] | H].
  exact H.
Qed.

Lemma dict_keys_set {V : Type} (d : dict V) (k : pystr) (v : V) :
  dict_keys (dict_set d k v) = note_label (dict_keys d) k.
Proof.
  unfold note_label, str_in.
  induction d as [|[k' v'] rest IH]; simpl; [reflexivity|].
  rewrite (eqb_sym k k'). destruct (PyStr.eqb k' k); simpl; [reflexivity|].
  rewrite IH. now destruct (existsb (PyStr.eqb k) (dict_keys rest)).
Qed.

Lemma match_loop_keys (target_times : list pystr)
    (forecast : list RawForecastEntry) (results final : dict RawForecastEntry) :
  match_loop forecast target_times results = Ok final ->
  dict_keys final =
  fold_left note_label (target_labels forecast target_times) (dict_keys results).
Proof.
  revert results. induction forecast as [|e rest IH]; intros results; simpl.
  - intros H. now injection H as <-.
  - unfold time_only.
    destruct (strptime (dt_txt e)) as [t|]; [|discriminate].
    destruct (str_in (strftime_HM t) target_times); intros Hrun.
    + rewrite (IH _ Hrun), dict_keys_set. reflexivity.
    + now rewrite (IH _ Hrun).
Qed.

(** X3: the slots of the result stand in the order in which their labels
    first appear in the forecast (not in the order of the target times), each
    label once: an overwritten slot keeps its place. *)
Theorem match_time_slots_key_order
    (forecast : list RawForecastEntry) (target_times : list pystr)
    (results : dict RawForecastEntry) :
  match_time_slots forecast target_times = Ok results ->
  dict_keys results = first_seen (target_labels forecast target_times).
Proof.
  intros Hrun. exact (match_loop_keys target_times forecast [] results Hrun).
Qed.

Lemma note_label_NoDup (seen : list pystr) (label : pystr) :
  NoDup seen -> NoDup (note_label seen label).
Proof.
  intros Hseen. unfold note_label. destruct (str_in label seen) eqn:E; [exact Hseen|].
  assert (Hout : ~ In label seen).
  { intros Hin. apply str_in_In in Hin. congruence. }
  clear E. induction Hseen as [|x seen Hx _ IH]; simpl.
  - constructor; [intros [] | constructor].
  - constructor.
    + intros Hin. apply in_app_or in Hin as [Hin | [<- | []]]; [now apply Hx|].
      apply Hout. now left.
    + apply IH. intros Hin. apply Hout. now right.
Qed.

Lemma fold_note_label_NoDup (labels seen : list pystr) :
  NoDup seen -> NoDup (fold_left note_label labels seen).
Proof.
  revert seen. induction labels as [|l labels IH]; intros seen Hseen; simpl.
  - exact Hseen.
  - apply IH, note_label_NoDup, Hseen.
Qed.

(** X4: the dict the Slot Matcher returns has no label twice and never more
    items than there are target times. *)
Theorem match_time_slots_distinct_bounded
    (forecast : list RawForecastEntry) (target_times : list pystr)
    (results : dict RawForecastEntry) :
  match_time_slots forecast target_times = Ok results ->
  NoDup (dict_keys results) /\
  (List.length results <= List.length target_times)%nat.
Proof.
  intros Hrun.
  assert (Hnodup : NoDup (dict_keys results)).
  { rewrite (match_loop_keys target_times forecast [] results Hrun).
    apply fold_note_label_NoDup. constructor. }
  split; [exact Hnodup|].
  replace (List.length results) with (List.length (dict_keys results))
    by (unfold dict_keys; apply length_map).
  apply NoDup_incl_length; [exact Hnodup|].
  intros label Hin. unfold dict_keys in Hin.
  apply in_map_iff in Hin as ([l e] & <- & Hitem). simpl.
  destruct (match_loop_sound target_times forecast [] results l e Hrun Hitem)
    as [[] | (Ht & _)].
  exact Ht.
Qed.

Lemma fold_note_label_nil (labels seen : list pystr) :
  fold_left note_label labels seen = [] -> seen = [] /\ labels = [].
Proof.
  revert seen. induction labels as [|l labels IH]; intros seen; simpl.
  - now intros ->.
  - intros H. apply IH in H as [H _]. unfold note_label in H.
    destruct (str_in l seen) eqn:E.
    + subst seen. discriminate.
    + now apply app_eq_nil in H as [_ H].
Qed.

Lemma target_labels_nil (forecast : list RawForecastEntry) (target_times : list pystr) :
  target_labels forecast target_times = [] <->
  forall entry label,
    In entry forecast -> time_only entry = Some label -> ~ In label target_times.
Proof.
  unfold target_labels.
  induction forecast as [|e rest IH]; simpl.
  - split; [intros _ ? ? [] | reflexivity].
  - split.
    + intros H. apply app_eq_nil in H as [He Hrest].
      intros entry label [<- | Hin] Ht.
      * rewrite Ht in He. intros Hl. apply str_in_In in Hl.
        rewrite Hl in He. discriminate.
      * now apply (proj1 IH Hrest entry label).
    + intros H. rewrite (proj2 IH); [|intros entry label Hin; apply H; now right].
      rewrite app_nil_r. destruct (time_only e) as [l|] eqn:Et; [|reflexivity].
      destruct (str_in l target_times) eqn:Hl; [|reflexivity].
      apply str_in_In in Hl. exfalso. apply (H e l); [now left | exact Et | exact Hl].
Qed.

(** X5: the result is the empty dict exactly when no entry of the forecast
    is at a target time (the case [main] reports as "No matching forecast
    slots found."). *)
Theorem match_time_slots_empty_iff
    (forecast : list RawForecastEntry) (target_times : list pystr)
    (results : dict RawForecastEntry) :
  match_time_slots forecast target_times = Ok results ->
  (results = [] <->
   forall entry label,
     In entry forecast -> time_only entry = Some label -> ~ In label target_times).
Proof.
  intros Hrun. rewrite <- target_labels_nil.
  pose proof (match_loop_keys target_times forecast [] results Hrun) as Hkeys.
  simpl in Hkeys. split.
  - intros ->. simpl in Hkeys. symmetry in Hkeys.
    now apply fold_note_label_nil in Hkeys as [_ H].
  - intros H. rewrite H in Hkeys. simpl in Hkeys.
    destruct results; [reflexivity | discriminate].
Qed.

End MatcherKeys.

(** ** Forecast Summarizer and Safety Assessor: defaults, order and bounds *)

Section AssessorRules.

Variable lower : pystr -> pystr.
Variable float_str : float -> pystr.

Local Abbreviation assess := (assess_weather_conditions lower float_str).
Local Abbreviation slot_ok := (slot_ok lower).
Local Abbreviation slot_reasons := (slot_reasons lower float_str).
Local Abbreviation bad_weather := (bad_weather lower).

Lemma slot_alone_rules (time : pystr) (data : SummaryRecord) :
  slot_alone lower float_str time data = (slot_ok data, slot_reasons time data).
Proof.
  unfold slot_alone, assess_slot, slot_ok, slot_reasons,
    too_cold, too_windy, bad_weather, poor_visibility, heavy_rain.
  rewrite !flag_split. cbn [fst snd app andb].
  now rewrite <- !app_assoc.
Qed.

Lemma assess_cons (time : pystr) (data : SummaryRecord) (rest : dict SummaryRecord) :
  assess ((time, data) :: rest) =
  (slot_ok data && fst (assess rest), slot_reasons time data ++ snd (assess rest)).
Proof.
  change ((time, data) :: rest) with ([(time, data)] ++ rest).
  now rewrite assess_app, assess_one, slot_alone_rules.
Qed.

(** X6: [summarize_forecast] keeps the labels and their order, and the
    record under a label is the projection of the entry under that label. *)
Theorem summarize_forecast_lookup (slots : dict RawForecastEntry) :
  dict_keys (summarize_forecast slots) = dict_keys slots /\
  forall label,
    dict_get (summarize_forecast slots) label =
    option_map simplify_forecast (dict_get slots label).
Proof.
  unfold summarize_forecast, dict_keys. split.
  - rewrite map_map. reflexivity.
  - intros label. induction slots as [|[k e] rest IH]; simpl; [reflexivity|].
    now destruct (PyStr.eqb k label).
Qed.

(** X7: the reasons come slot by slot in the iteration order of the summary,
    and within a slot in the order temperature, wind, weather, visibility,
    rain; every rule that holds on a slot contributes its reason, whatever
    the other rules say. *)
Theorem assess_reasons_in_order (summary : dict SummaryRecord) :
  snd (assess_weather_conditions lower float_str summary) =
  flat_map (fun item => slot_reasons (fst item) (snd item)) summary.
Proof.
  induction summary as [|[time data] rest IH]; [reflexivity|].
  rewrite assess_cons. cbn [snd fst flat_map]. now rewrite IH.
Qed.

(** X8: the verdict is safe exactly when, on every slot, the temperature is
    not below 5, the wind not above 20, the lowercased description holds
    none of the six phrases, the visibility is not below 3000 and the rain
    not at or above 2. *)
Theorem assess_safe_iff_no_rule_fires (summary : dict SummaryRecord) :
  fst (assess_weather_conditions lower float_str summary) = true <->
  forall time data, In (time, data) summary ->
    lt_const (temp data) MIN_TEMP = false /\
    gt_const (wind data) MAX_WIND = false /\
    existsb (str_contains (lower (description data)))
            (BAD_WEATHER ++ DANGEROUS_RAIN) = false /\
    lt_const (visibility data) 3000 = false /\
    ge_const (rain data) 2 = false.
Proof.
  induction summary as [|[time data] rest IH].
  - split; [intros _ ? ? [] | reflexivity].
  - rewrite assess_cons. cbn [fst]. rewrite andb_true_iff, IH.
    unfold slot_ok, too_cold, too_windy, bad_weather, poor_visibility, heavy_rain.
    rewrite !andb_true_iff, !negb_true_iff. split.
    + intros [((((Ht & Hw) & Hb) & Hv) & Hr) Hrest] time' data' [Heq | Hin].
      * injection Heq as <- <-. tauto.
      * exact (Hrest time' data' Hin).
    + intros H. split.
      * destruct (H time data (or_introl eq_refl)) as (Ht & Hw & Hb & Hv & Hr). tauto.
      * intros time' data' Hin. apply (H time' data'). now right.
Qed.

Lemma slot_reasons_length (time : pystr) (data : SummaryRecord) :
  (List.length (slot_reasons time data) <= 5)%nat.
Proof.
  unfold slot_reasons.
  destruct (too_cold data), (too_windy data), (bad_weather data),
    (poor_visibility data), (heavy_rain data); simpl; lia.
Qed.

(** X9: the Safety Assessor never returns more than five reasons per slot. *)
Theorem assess_reasons_bound (summary : dict SummaryRecord) :
  (List.length (snd (assess_weather_conditions lower float_str summary))
   <= 5 * List.length summary)%nat.
Proof.
  induction summary as [|[time data] rest IH]; [simpl; lia|].
  rewrite assess_cons. cbn [snd List.length]. rewrite length_app.
  pose proof (slot_reasons_length time data). lia.
Qed.

Lemma slot_reasons_prefix (time : pystr) (data : SummaryRecord) (reason : pystr) :
  In reason (slot_reasons time data) ->
  exists rest, reason = time ++ py ": " ++ rest.
Proof.
  unfold slot_reasons, reason_temp, reason_wind, reason_weather,
    reason_visibility, reason_rain.
  intros Hin.
  repeat (apply in_app_or in Hin as [Hin | Hin]);
    match type of Hin with
    | In _ (if ?c then _ else _) => destruct c; [|destruct Hin]
    end;
    destruct Hin as [<- | []]; eexists; cbn [py app]; reflexivity.
Qed.

(** X10: every reason the Safety Assessor returns starts with the label of a
    slot of the summary, followed by a colon and a space. *)
Theorem assess_reasons_name_their_slot
    (summary : dict SummaryRecord) (reason : pystr) :
  In reason (snd (assess_weather_conditions lower float_str summary)) ->
  exists time data rest,
    In (time, data) summary /\ reason = time ++ py ": " ++ rest.
Proof.
  induction summary as [|[time data] tail IH]; [intros []|].
  rewrite assess_cons. cbn [snd]. intros Hin.
  apply in_app_or in Hin as [Hin | Hin].
  - destruct (slot_reasons_prefix time data reason Hin) as (rest & ->).
    exists time, data, rest. split; [now left | reflexivity].
  - destruct (IH Hin) as (time' & data' & rest & Hin' & ->).
    exists time', data', rest. split; [now right | reflexivity].
Qed.

Lemma quiet_slot_changes_nothing
    (front back : dict SummaryRecord) (time : pystr) (data : SummaryRecord) :
  slot_ok data = true ->
  assess (front ++ (time, data) :: back) = assess (front ++ back).
Proof.
  intros Hok.
  rewrite (assess_app lower float_str front ((time, data) :: back)),
    (assess_app lower float_str front back), (assess_cons time data back).
  cbn [fst snd].
  assert (Hnone : slot_reasons time data = []).
  { unfold slot_ok in Hok. unfold slot_reasons.
    rewrite !andb_true_iff, !negb_true_iff in Hok.
    destruct Hok as ((((-> & ->) & ->) & ->) & ->). reflexivity. }
  now rewrite Hok, Hnone.
Qed.

(** X11: the temperature, wind and visibility thresholds are strict: a
    record with exactly 5 degrees, exactly 20 m/s and exactly 3000 m, rain
    under 2 and no dangerous phrase, leaves the verdict of any summary
    unchanged. *)
Theorem assess_strict_thresholds
    (front back : dict SummaryRecord) (time : pystr) (data : SummaryRecord) :
  exactly 5 (temp data) ->
  exactly 20 (wind data) ->
  exactly 3000 (visibility data) ->
  ge_const (rain data) 2 = false ->
  existsb (str_contains (lower (description data)))
          (BAD_WEATHER ++ DANGEROUS_RAIN) = false ->
  assess_weather_conditions lower float_str (front ++ (time, data) :: back) =
  assess_weather_conditions lower float_str (front ++ back).
Proof.
  intros Ht Hw Hv Hr Hb. apply quiet_slot_changes_nothing.
  unfold slot_ok, too_cold, too_windy, bad_weather, poor_visibility, heavy_rain.
  rewrite Hr, Hb.
  destruct Ht as [-> | ->], Hw as [-> | ->], Hv as [-> | ->]; reflexivity.
Qed.

(** X12: a reading that is not a number is never flagged: a record whose
    temperature, wind, visibility and rain are all NaN, with no dangerous
    phrase, leaves the verdict of any summary unchanged. *)
Theorem assess_nan_never_flagged
    (front back : dict SummaryRecord) (time : pystr) (data : SummaryRecord) :
  temp data = PyFloat nan ->
  wind data = PyFloat nan ->
  visibility data = PyFloat nan ->
  rain data = PyFloat nan ->
  existsb (str_contains (lower (description data)))
          (BAD_WEATHER ++ DANGEROUS_RAIN) = false ->
  assess_weather_conditions lower float_str (front ++ (time, data) :: back) =
  assess_weather_conditions lower float_str (front ++ back).
Proof.
  intros Ht Hw Hv Hr Hb. apply quiet_slot_changes_nothing.
  unfold slot_ok, too_cold, too_windy, bad_weather, poor_visibility, heavy_rain.
  rewrite Ht, Hw, Hv, Hr, Hb. reflexivity.
Qed.

(** X13: an entry that lacks [visibility] and [rain] (or whose [rain] has no
    ["3h"]) gets the defaults 10000 and 0, so its slot can only be flagged
    for temperature, wind or weather. *)
Theorem missing_fields_are_never_flagged
    (time : pystr) (entry : RawForecastEntry) :
  entry_visibility entry = None ->
  entry_rain entry = None \/ entry_rain entry = Some None ->
  visibility (simplify_forecast entry) = PyInt 10000 /\
  rain (simplify_forecast entry) = PyInt 0 /\
  snd (assess_weather_conditions lower float_str
         [(time, simplify_forecast entry)]) =
  (if lt_const (main_temp entry) MIN_TEMP
   then [reason_temp float_str time (main_temp entry)] else []) ++
  (if gt_const (wind_speed entry) MAX_WIND
   then [reason_wind float_str time (wind_speed entry)] else []) ++
  (if existsb (str_contains (lower (weather_description entry)))
              (BAD_WEATHER ++ DANGEROUS_RAIN)
   then [reason_weather time (lower (weather_description entry))] else []).
Proof.
  intros Hv Hr.
  assert (Hvis : visibility (simplify_forecast entry) = PyInt 10000)
    by (unfold simplify_forecast; simpl; now rewrite Hv).
  assert (Hrain : rain (simplify_forecast entry) = PyInt 0)
    by (unfold simplify_forecast; simpl; destruct Hr as [-> | ->]; reflexivity).
  split; [exact Hvis | split; [exact Hrain|]].
  rewrite assess_cons. cbn [snd]. rewrite app_nil_r.
  unfold slot_reasons, too_cold, too_windy, bad_weather, poor_visibility, heavy_rain.
  rewrite Hvis, Hrain. cbn [lt_const ge_const Z.ltb Z.leb Z.compare Pos.compare
                              Pos.compare_cont].
  simpl (simplify_forecast entry). cbn [temp wind description].
  now rewrite !app_nil_r.
Qed.

(** X14: a slot whose lowercased description contains one of the six phrases
    is flagged, wherever it stands, with a reason that quotes the lowercased
    description. *)
Theorem assess_dangerous_phrase_flagged
    (summary : dict SummaryRecord) (time : pystr) (data : SummaryRecord)
    (phrase : pystr) :
  In (time, data) summary ->
  In phrase (BAD_WEATHER ++ DANGEROUS_RAIN) ->
  str_contains (lower (description data)) phrase = true ->
  In (reason_weather time (lower (description data)))
     (snd (assess_weather_conditions lower float_str summary)) /\
  fst (assess_weather_conditions lower float_str summary) = false.
Proof.
  intros Hin Hphrase Hfound.
  assert (Hbad : bad_weather data = true).
  { unfold bad_weather. apply existsb_exists. now exists phrase. }
  apply in_split in Hin as (front & back & ->).
  rewrite (assess_app lower float_str front ((time, data) :: back)),
    (assess_cons time data back).
  cbn [fst snd].
  unfold slot_ok, slot_reasons. rewrite Hbad. split.
  - apply in_or_app. right. apply in_or_app. left.
    apply in_or_app. right. apply in_or_app. right.
    apply in_or_app. left. now left.
  - cbn [negb]. rewrite !andb_false_r. reflexivity.
Qed.

(** X15: assessing two summaries one after the other is assessing each on
    its own: the verdict is safe when both are, and the reasons are those of
    the first followed by those of the second. *)
Theorem assess_concat (first second : dict SummaryRecord) :
  assess_weather_conditions lower float_str (first ++ second) =
  (fst (assess_weather_conditions lower float_str first)
   && fst (assess_weather_conditions lower float_str second),
   snd (assess_weather_conditions lower float_str first)
   ++ snd (assess_weather_conditions lower float_str second)).
Proof.
  induction first as [|[time data] rest IH]; simpl app.
  - now destruct (assess_weather_conditions lower float_str second).
  - rewrite !assess_cons, IH. cbn [fst snd].
    now rewrite andb_assoc, app_assoc.
Qed.

End AssessorRules.

(** ** Decision Extractor: blank texts, the decision line and the body *)

Section ExtractorMore.

Lemma lstrip_nil_iff (s : pystr) : lstrip s = [] <-> blank s = true.
Proof.
  unfold blank. induction s as [|c s IH]; simpl; [tauto|].
  destruct (isspace c); simpl; [exact IH|].
  split; discriminate.
Qed.

Lemma lstrip_head (s rest : pystr) (c : char) :
  lstrip s = c :: rest -> isspace c = false.
Proof.
  induction s as [|a s IH]; simpl; [discriminate|].
  destruct (isspace a) eqn:E; [exact IH|].
  intros H. injection H as <- _. exact E.
Qed.

Lemma rstrip_nil_iff (s : pystr) : rstrip s = [] <-> blank s = true.
Proof.
  unfold blank. induction s as [|c s IH]; simpl; [tauto|].
  destruct (rstrip s) as [|k kept].
  - destruct (isspace c); simpl.
    + split; [intros _; now apply IH | reflexivity].
    + split; discriminate.
  - split; [discriminate|]. rewrite andb_true_iff. intros [_ H].
    apply IH in H. discriminate.
Qed.

Lemma rstrip_head (s : pystr) (c : char) :
  isspace c = false -> exists kept, rstrip (c :: s) = c :: kept.
Proof.
  intros Hc. simpl. destruct (rstrip s) as [|k kept].
  - rewrite Hc. now exists [].
  - now exists (k :: kept).
Qed.

Lemma rstrip_idem (s : pystr) : rstrip (rstrip s) = rstrip s.
Proof.
  induction s as [|c s IH]; simpl; [reflexivity|].
  destruct (rstrip s) as [|k kept] eqn:E.
  - destruct (isspace c) eqn:Hc; simpl; [reflexivity | now rewrite Hc].
  - cbn [rstrip] in *. now rewrite IH.
Qed.

Lemma strip_nil_iff (s : pystr) : strip s = [] <-> blank s = true.
Proof.
  unfold strip. rewrite <- lstrip_nil_iff. split.
  - intros H. destruct (lstrip s) as [|c rest] eqn:E; [reflexivity|].
    apply lstrip_head in E.
    destruct (rstrip_head rest c E) as (kept & Hk). congruence.
  - now intros ->.
Qed.

(** A trimmed text that is not empty starts and ends solid. *)
Lemma strip_shape (s : pystr) :
  strip s = [] \/ (starts_solid (strip s) = true /\ rstrip (strip s) = strip s).
Proof.
  unfold strip. destruct (lstrip s) as [|c rest] eqn:E; [now left|].
  right. apply lstrip_head in E.
  destruct (rstrip_head rest c E) as (kept & Hk).
  split; [|apply rstrip_idem].
  rewrite Hk. simpl. now rewrite E.
Qed.

Lemma strip_idem (s : pystr) : strip (strip s) = strip s.
Proof.
  destruct (strip_shape s) as [-> | [Hhead Htail]]; [reflexivity|].
  rewrite <- (app_nil_r (strip s)) at 1.
  unfold strip at 1. rewrite (starts_solid_lstrip _ [] Hhead), app_nil_r.
  exact Htail.
Qed.

Lemma splitlines_from_nil (cur s : pystr) :
  splitlines_from cur s = [] -> cur = [] /\ s = [].
Proof.
  revert cur. induction s as [|c s IH]; intros cur; simpl.
  - destruct cur; [tauto | discriminate].
  - destruct (islinebreak c); [discriminate|].
    intros H. apply IH in H as [H _]. discriminate.
Qed.

Lemma last_item_raise {A : Type} (l : list A) (e : exn) :
  last_item l = Raise e -> l = [] /\ e = IndexError.
Proof.
  induction l as [|x l IH]; simpl.
  - intros H. now injection H as <-.
  - destruct l as [|y l]; [discriminate|]. intros H.
    destruct (IH H) as [Hnil _]. discriminate.
Qed.

Lemma decision_line_raise (ai_message : pystr) (e : exn) :
  decision_line ai_message = Raise e -> blank ai_message = true /\ e = IndexError.
Proof.
  unfold decision_line.
  destruct (last_item (splitlines (strip ai_message))) as [line|e'] eqn:E;
    [discriminate|].
  intros H. injection H as <-.
  apply last_item_raise in E as [Hnil ->]. split; [|reflexivity].
  apply splitlines_from_nil in Hnil as [_ Hnil]. now apply strip_nil_iff.
Qed.

(** X16: the Decision Extractor raises exactly on the texts that are empty
    or white space only, and then with [IndexError]; on every other text it
    returns a decision. *)
Theorem extract_raises_iff_blank (ai_message : pystr) :
  (extract_decision ai_message = Raise IndexError <-> blank ai_message = true) /\
  (blank ai_message = false <->
   exists decision note, extract_decision ai_message = Ok (decision, note)).
Proof.
  assert (Hblank : blank ai_message = true ->
                   extract_decision ai_message = Raise IndexError).
  { intros H. apply extract_blank. now apply strip_nil_iff. }
  assert (Hraise : forall e, extract_decision ai_message = Raise e ->
                             blank ai_message = true /\ e = IndexError).
  { intros e. unfold extract_decision.
    destruct (decision_line ai_message) as [line|e'] eqn:E.
    - destruct (classify line); discriminate.
    - intros H. injection H as <-. now apply decision_line_raise. }
  split; split.
  - intros H. now apply Hraise in H.
  - exact Hblank.
  - intros Hnot. destruct (extract_decision ai_message) as [[d n]|e] eqn:E.
    + now exists d, n.
    + destruct (Hraise e eq_refl) as [H _]. congruence.
  - intros (d & n & H). destruct (blank ai_message) eqn:E; [|reflexivity].
    rewrite (Hblank eq_refl) in H. discriminate.
Qed.

(** The last line of a text that ends with a character that is no line break
    ends with that character. *)
Lemma splitlines_last_char (c : char) :
  islinebreak c = false ->
  forall (n : nat) (s cur : pystr), (List.length s <= n)%nat ->
    exists front, last_item (splitlines_from cur (s ++ [c])) = Ok (front ++ [c]).
Proof.
  intros Hc.
  assert (Hbase : forall cur,
            exists front, last_item (splitlines_from cur [c]) = Ok (front ++ [c])).
  { intros cur. simpl. rewrite Hc. simpl. now exists (rev cur). }
  assert (HLF : (c =? LF)%N = false).
  { destruct (N.eqb_spec c LF) as [->|]; [discriminate Hc | reflexivity]. }
  induction n as [|n IH]; intros s cur Hlen.
  - destruct s; [apply Hbase | simpl in Hlen; lia].
  - destruct s as [|a s]; [apply Hbase|].
    simpl in Hlen. cbn [app splitlines_from].
    destruct (islinebreak a).
    + destruct s as [|d s]; cbn [app].
      * rewrite HLF, andb_false_r.
        destruct (Hbase []) as (front & Hfront). exists front.
        now apply last_item_cons.
      * destruct ((a =? CR)%N && (d =? LF)%N).
        -- destruct (IH s []) as (front & Hfront); [simpl in Hlen; lia|].
           exists front. now apply last_item_cons.
        -- destruct (IH (d :: s) []) as (front & Hfront); [lia|].
           exists front. now apply last_item_cons.
    + apply IH. lia.
Qed.

Lemma rstrip_last (s : pystr) :
  rstrip s = s -> s <> [] -> exists front c, s = front ++ [c] /\ isspace c = false.
Proof.
  intros Hs Hne. destruct (exists_last Hne) as (front & c & ->).
  exists front, c. split; [reflexivity|].
  destruct (isspace c) eqn:E; [|reflexivity].
  rewrite (rstrip_app_spaces front [c]) in Hs by (simpl; now rewrite E).
  assert (Hlen : (List.length (rstrip front) <= List.length front)%nat).
  { clear. induction front as [|a front IH]; simpl; [lia|].
    destruct (rstrip front); [destruct (isspace a)|]; simpl in *; lia. }
  rewrite Hs, length_app in Hlen. simpl in Hlen. lia.
Qed.

Lemma isspace_not_linebreak (c : char) : isspace c = false -> islinebreak c = false.
Proof.
  intros H. destruct (islinebreak c) eqn:E; [|reflexivity].
  apply islinebreak_isspace in E. congruence.
Qed.

(** X17: when the Decision Extractor finds a decision line, that line is not
    empty and is trimmed: the comparison with the tags never sees an empty
    line or a line with white space around it. *)
Theorem decision_line_solid (ai_message line : pystr) :
  decision_line ai_message = Ok line ->
  line <> [] /\ strip line = line /\ starts_solid line = true.
Proof.
  unfold decision_line.
  destruct (last_item (splitlines (strip ai_message))) as [raw|e] eqn:E;
    [|discriminate].
  intros H. injection H as <-.
  assert (Hne : strip ai_message <> []).
  { intros H. rewrite H in E. discriminate. }
  destruct (strip_shape ai_message) as [H | [_ Htail]]; [congruence|].
  destruct (rstrip_last _ Htail Hne) as (front & c & Hs & Hc).
  unfold splitlines in E. rewrite Hs in E.
  destruct (splitlines_last_char c (isspace_not_linebreak c Hc)
              (List.length front) front [] (le_n _)) as (pre & Hpre).
  rewrite Hpre in E. injection E as <-.
  assert (Hstrip : strip (pre ++ [c]) <> []).
  { intros H. apply strip_nil_iff in H. unfold blank in H.
    rewrite forallb_app in H. simpl in H. rewrite Hc in H.
    rewrite !andb_false_r in H. discriminate. }
  split; [exact Hstrip | split; [apply strip_idem|]].
  destruct (strip_shape (pre ++ [c])) as [H | [Hhead _]]; [congruence | exact Hhead].
Qed.

(** X18: when a tag stands on a line of its own after a line feed, possibly
    followed by white space without line feed, the decision is the tag's and
    the body is the text before that line feed, trimmed: the tag line is
    removed. *)
Theorem tag_after_line_feed_removed (text w : pystr) :
  forallb isspace w = true -> no_LF w = true ->
  extract_decision (text ++ LF :: py "[SAFE]" ++ w) =
    Ok (SAFE, {| subject := subject_yes; body := strip text |}) /\
  extract_decision (text ++ LF :: py "[NOT SAFE]" ++ w) =
    Ok (NOT_SAFE, {| subject := subject_no; body := strip text |}).
Proof.
  intros Hw Hlf. exact (extract_tag_after_text text w Hw Hlf).
Qed.

(** X19: the tag is cut at a line feed only: when the text has no line feed
    (one line, or lines separated by carriage returns or other boundaries)
    and ends in a tag, the body is the whole text, trimmed, tag included. *)
Theorem no_line_feed_keeps_tag
    (ai_message : pystr) (decision : Decision) (note : Notification) :
  no_LF ai_message = true ->
  extract_decision ai_message = Ok (decision, note) ->
  decision <> UNCLEAR ->
  body note = strip ai_message.
Proof.
  intros Hlf. unfold extract_decision.
  destruct (decision_line ai_message) as [line|e]; [|discriminate].
  rewrite (rsplit_LF_head_none _ Hlf).
  destruct (classify line); intros H; injection H as <- <-;
    [reflexivity | reflexivity | congruence].
Qed.

(** X20: the decision depends on the last line only: whatever text (earlier
    tags included) and line boundary come before it, and whatever white
    space follows it, a solid last line alone fixes the decision. *)
Theorem decision_depends_on_last_line
    (before : option (pystr * linebreak)) (line w : pystr) :
  solid_line line -> forallb isspace w = true ->
  decision_of (ending_in before (line ++ w)) = Ok (classify line).
Proof.
  intros Hsolid Hw. unfold decision_of, extract_decision.
  rewrite (decision_line_ending_in before line w Hsolid Hw).
  now destruct (classify line).
Qed.

End ExtractorMore.

(** ** The run and its trigger: the paths of [main] and [run_script] *)

Section RunPaths.

Variable strptime : pystr -> option datetime.
Variable lower : pystr -> pystr.
Variable float_str : float -> pystr.

Local Abbreviation time_only := (time_only strptime).
Local Abbreviation match_time_slots := (match_time_slots strptime).
Local Abbreviation assess := (assess_weather_conditions lower float_str).
Local Abbreviation main := (main strptime lower float_str).
Local Abbreviation run_script := (run_script strptime lower float_str).

(** What [main] does once the forecast is there, stage by stage. *)
Lemma main_with_forecast (w : World) (forecast : list RawForecastEntry) :
  forecast_request w = Some forecast -> forecast <> [] ->
  main w [] =
  match match_time_slots forecast COMMUTE_TARGETS with
  | Raise e => ([FetchForecast; MatchSlots], Raise e)
  | Ok [] => ([FetchForecast; MatchSlots; SendEmail no_slots_note], Ok tt)
  | Ok slots =>
      let summary := summarize_forecast slots in
      match extract_decision
              (generated_text (chat w summary (snd (assess summary)))) with
      | Ok (_, note) =>
          ([FetchForecast; MatchSlots; GenerateText; SendEmail note], Ok tt)
      | Raise e => ([FetchForecast; MatchSlots; GenerateText], Raise e)
      end
  end.
Proof.
  intros Hfetch Hne.
  unfold main, fetch_weather_forecast, ai_generate_summary, send_email,
    bind, emit, ret, lift.
  cbn [app]. rewrite Hfetch.
  destruct forecast as [|entry rest]; [congruence|].
  destruct (match_time_slots (entry :: rest) COMMUTE_TARGETS) as [[|slot slots]|e];
    try reflexivity.
  destruct (assess (summarize_forecast (slot :: slots))) as [safe reasons].
  cbn [app snd]. unfold generated_text.
  destruct (extract_decision _) as [[decision [subj text]]|e]; reflexivity.
Qed.

(** X21: an empty forecast list is handled like a failed request: the run
    sends the "Could not retrieve forecast." notification and stops before
    the slot matching. *)
Theorem empty_forecast_is_fetch_failure (w : World) :
  forecast_request w = Some [] ->
  main w [] = ([FetchForecast; SendEmail no_forecast_note], Ok tt).
Proof.
  intros Hfetch.
  unfold main, fetch_weather_forecast, send_email, bind, emit, ret.
  cbn [app]. now rewrite Hfetch.
Qed.

(** X22: when the forecast has entries but none at a commute time, the run
    sends the "No matching forecast slots found." notification and returns
    without calling the text service. *)
Theorem no_matching_slot_notification (w : World) (forecast : list RawForecastEntry) :
  forecast_request w = Some forecast ->
  forecast <> [] ->
  Forall (fun entry => time_only entry <> None) forecast ->
  (forall entry label,
     In entry forecast -> time_only entry = Some label ->
     ~ In label COMMUTE_TARGETS) ->
  main w [] = ([FetchForecast; MatchSlots; SendEmail no_slots_note], Ok tt).
Proof.
  intros Hfetch Hne Hparse Hnone.
  rewrite (main_with_forecast w forecast Hfetch Hne).
  destruct (match_loop_cases strptime COMMUTE_TARGETS forecast [])
    as [[_ (final & Hok)] | [Hex _]];
    [|destruct (parse_all_or_some_fails strptime forecast Hparse Hex)].
  unfold match_time_slots. rewrite Hok.
  pose proof (match_loop_keys strptime COMMUTE_TARGETS forecast [] final Hok) as Hkeys.
  rewrite (proj2 (target_labels_nil strptime forecast COMMUTE_TARGETS) Hnone) in Hkeys.
  destruct final; [reflexivity | discriminate].
Qed.

(** X23: one entry whose timestamp does not parse ends the run with
    [ValueError] before any notification is sent, whatever the other
    entries are. *)
Theorem malformed_timestamp_aborts_run (w : World) (forecast : list RawForecastEntry) :
  forecast_request w = Some forecast ->
  Exists (fun entry => time_only entry = None) forecast ->
  main w [] = ([FetchForecast; MatchSlots], Raise ValueError).
Proof.
  intros Hfetch Hex.
  assert (Hne : forecast <> []) by (intros ->; inversion Hex).
  rewrite (main_with_forecast w forecast Hfetch Hne).
  destruct (match_loop_cases strptime COMMUTE_TARGETS forecast [])
    as [[Hall _] | [_ Hraise]];
    [destruct (parse_all_or_some_fails strptime forecast Hall Hex)|].
  unfold match_time_slots. now rewrite Hraise.
Qed.

Lemma lstrip_app_solid (text rest : pystr) :
  blank text = false -> lstrip (text ++ rest) = lstrip text ++ rest.
Proof.
  unfold blank. induction text as [|c text IH]; simpl; [discriminate|].
  destruct (isspace c); simpl; [exact IH | reflexivity].
Qed.

Lemma lstrip_idem (s : pystr) : lstrip (lstrip s) = lstrip s.
Proof.
  destruct (lstrip s) as [|c rest] eqn:E; [reflexivity|].
  apply lstrip_head in E. simpl. now rewrite E.
Qed.

Lemma trimmed_completion (text tag w : pystr) :
  blank text = false -> solid_line tag -> forallb isspace w = true ->
  generated_text (Completed (text ++ LF :: tag ++ w)) = lstrip text ++ LF :: tag.
Proof.
  intros Htext (Hhead & Htail & _) Hw. cbn [generated_text]. unfold strip.
  rewrite (lstrip_app_solid text _ Htext).
  change (lstrip text ++ LF :: tag ++ w) with (lstrip text ++ (LF :: tag) ++ w).
  rewrite app_assoc, (rstrip_app_spaces _ _ Hw).
  change (lstrip text ++ LF :: tag) with (lstrip text ++ [LF] ++ tag).
  rewrite app_assoc, rstrip_app_keep; rewrite Htail.
  - now rewrite <- app_assoc.
  - intros ->. discriminate.
Qed.

(** X25: because [ai_generate_summary] trims the completion before it is
    returned, white space and empty lines after the tag do no harm on the
    completion path: when a tag follows a line feed and a text that is not
    blank, the decision is the tag's and the body is that text, trimmed,
    whatever white space (line feeds included) ends the completion. *)
Theorem completion_trailing_space_harmless (text w : pystr) :
  blank text = false ->
  forallb isspace w = true ->
  extract_decision (generated_text (Completed (text ++ LF :: py "[SAFE]" ++ w))) =
    Ok (SAFE, {| subject := subject_yes; body := strip text |}) /\
  extract_decision (generated_text (Completed (text ++ LF :: py "[NOT SAFE]" ++ w))) =
    Ok (NOT_SAFE, {| subject := subject_no; body := strip text |}).
Proof.
  intros Htext Hw.
  rewrite (trimmed_completion text _ w Htext tag_SAFE_solid Hw),
    (trimmed_completion text _ w Htext tag_NOT_SAFE_solid Hw).
  destruct (extract_tag_after_text (lstrip text) [] eq_refl eq_refl) as [Hs Hn].
  rewrite !app_nil_r in Hs, Hn. rewrite Hs, Hn.
  unfold strip. now rewrite lstrip_idem.
Qed.

Lemma no_linebreak_rstrip (s : pystr) :
  no_linebreak s = true -> no_linebreak (rstrip s) = true.
Proof.
  unfold no_linebreak. induction s as [|c s IH]; simpl; [reflexivity|].
  rewrite andb_true_iff. intros [Hc Hs].
  destruct (rstrip s) as [|k kept].
  - destruct (isspace c); simpl; [reflexivity | now rewrite Hc].
  - cbn [forallb]. rewrite Hc. now apply IH.
Qed.

(** A one-line text that starts with a character that is neither white
    space nor an opening bracket is unclear. *)
Lemma one_line_text_unclear (c : char) (rest : pystr) :
  isspace c = false -> (c =? 91)%N = false ->
  no_linebreak (c :: rest) = true ->
  extract_decision (c :: rest) =
  Ok (UNCLEAR, {| subject := subject_unclear;
                  body := (c :: rest) ++ unclear_note |}).
Proof.
  intros Hc Hbracket Hno.
  destruct (rstrip_head rest c Hc) as (kept & Hkept).
  assert (Hstrip : strip (c :: rest) = c :: kept).
  { unfold strip. cbn [lstrip]. now rewrite Hc. }
  pose proof (no_linebreak_rstrip (c :: rest) Hno) as Hkept_nl.
  rewrite Hkept in Hkept_nl.
  assert (Hline : decision_line (c :: rest) = Ok (c :: kept)).
  { unfold decision_line, splitlines. rewrite Hstrip.
    rewrite (splitlines_from_one [] (c :: kept) Hkept_nl) by discriminate.
    cbn [rev app last_item]. now rewrite <- Hstrip, strip_idem. }
  apply (extract_unclear (c :: rest) (c :: kept) Hline).
  - intros H. injection H as -> _. discriminate.
  - intros H. injection H as -> _. discriminate.
Qed.

Lemma failure_text_unclear (error_text : pystr) :
  no_linebreak error_text = true ->
  extract_decision (generated_text (Failed error_text)) =
  Ok (UNCLEAR, {| subject := subject_unclear;
                  body := generated_text (Failed error_text) ++ unclear_note |}).
Proof.
  intros Hno.
  apply (one_line_text_unclear 40%N (py "AI summary failed): " ++ error_text));
    [reflexivity | reflexivity |].
  unfold no_linebreak in *. cbn [py app forallb].
  now rewrite Hno.
Qed.

(** X26: the fallback text of a failed text-service call is never blank, so
    the Decision Extractor never raises on it; and when the error text has
    no line break, the decision is UNCLEAR, with the "Unclear" subject and
    the fallback text followed by the note as body. *)
Theorem fallback_text_is_unclear (error_text : pystr) :
  (exists decision note,
     extract_decision (generated_text (Failed error_text)) = Ok (decision, note)) /\
  (no_linebreak error_text = true ->
   extract_decision (generated_text (Failed error_text)) =
   Ok (UNCLEAR,
       {| subject := subject_unclear;
          body := py "(AI summary failed): " ++ error_text ++ unclear_note |})).
Proof.
  split.
  - destruct (extract_decision (generated_text (Failed error_text)))
      as [[decision note]|e] eqn:E; [now exists decision, note|].
    exfalso. unfold extract_decision in E.
    destruct (decision_line (generated_text (Failed error_text))) as [line|e'] eqn:El.
    + destruct (classify line); discriminate.
    + apply decision_line_raise in El as [Hblank _]. discriminate Hblank.
  - intros Hno. rewrite (failure_text_unclear error_text Hno).
    cbn [generated_text]. now rewrite <- app_assoc.
Qed.

(** X27: the handler of ["/run"] does nothing at all on Saturday and Sunday
    (no request, no notification); on the other days it runs [main] once,
    passes on an exception of [main], and otherwise answers "executed and
    email sent", also when the only email was the error notification of a
    failed forecast request. *)
Theorem run_script_gate (london_weekday : Z) (w : World) :
  (5 <= london_weekday ->
   run_script london_weekday w [] = ([], Ok response_weekend)) /\
  (london_weekday < 5 ->
   fst (run_script london_weekday w []) = fst (main w []) /\
   snd (run_script london_weekday w []) =
   match snd (main w []) with
   | Ok _ => Ok response_executed
   | Raise e => Raise e
   end) /\
  (london_weekday < 5 -> forecast_request w = None ->
   run_script london_weekday w [] =
   ([FetchForecast; SendEmail no_forecast_note], Ok response_executed)).
Proof.
  unfold run_script, send_daily_weather_email. split; [|split].
  - intros Hday. apply Z.ltb_ge in Hday. now rewrite Hday.
  - intros Hday. apply Z.ltb_lt in Hday. rewrite Hday. unfold bind.
    now destruct (main w []) as [trace [[]|e]].
  - intros Hday Hfetch. apply Z.ltb_lt in Hday. rewrite Hday.
    unfold bind, main, fetch_weather_forecast, send_email, bind, emit, ret.
    cbn [app]. now rewrite Hfetch.
Qed.

End RunPaths.

(** ** The further properties at concrete inputs *)

Lemma match_time_slots_sound_witness :
  match_time_slots Sample.strptime_iso Sample.forecast COMMUTE_TARGETS = Ok Demo.slots /\
  In (py "18:00", nth 2 Sample.forecast (Sample.entry_at "" (PyInt 0) None)) Demo.slots /\
  In (py "18:00") COMMUTE_TARGETS /\
  In (nth 2 Sample.forecast (Sample.entry_at "" (PyInt 0) None)) Sample.forecast /\
  time_only Sample.strptime_iso
    (nth 2 Sample.forecast (Sample.entry_at "" (PyInt 0) None)) = Some (py "18:00").
Proof.
  assert (Hrun : match_time_slots Sample.strptime_iso Sample.forecast COMMUTE_TARGETS
                 = Ok Demo.slots) by reflexivity.
  assert (Hin : In (py "18:00",
                    nth 2 Sample.forecast (Sample.entry_at "" (PyInt 0) None))
                   Demo.slots) by (right; left; reflexivity).
  split; [exact Hrun | split; [exact Hin|]].
  exact (match_time_slots_sound Sample.strptime_iso Sample.forecast COMMUTE_TARGETS
           Demo.slots _ _ Hrun Hin).
Defined.

Lemma match_time_slots_key_order_witness :
  match_time_slots Sample.strptime_iso Sample.forecast COMMUTE_TARGETS = Ok Demo.slots /\
  dict_keys Demo.slots =
  first_seen (target_labels Sample.strptime_iso Sample.forecast COMMUTE_TARGETS).
Proof.
  assert (Hrun : match_time_slots Sample.strptime_iso Sample.forecast COMMUTE_TARGETS
                 = Ok Demo.slots) by reflexivity.
  split; [exact Hrun|].
  exact (match_time_slots_key_order Sample.strptime_iso Sample.forecast
           COMMUTE_TARGETS Demo.slots Hrun).
Defined.

Lemma match_time_slots_distinct_bounded_witness :
  match_time_slots Sample.strptime_iso Sample.forecast COMMUTE_TARGETS = Ok Demo.slots /\
  NoDup (dict_keys Demo.slots) /\
  (List.length Demo.slots <= List.length COMMUTE_TARGETS)%nat.
Proof.
  assert (Hrun : match_time_slots Sample.strptime_iso Sample.forecast COMMUTE_TARGETS
                 = Ok Demo.slots) by reflexivity.
  split; [exact Hrun|].
  exact (match_time_slots_distinct_bounded Sample.strptime_iso Sample.forecast
           COMMUTE_TARGETS Demo.slots Hrun).
Defined.

Lemma match_time_slots_empty_iff_witness :
  match_time_slots Sample.strptime_iso Demo.night_forecast COMMUTE_TARGETS = Ok [] /\
  (@nil (pystr * RawForecastEntry) = [] <->
   forall entry label,
     In entry Demo.night_forecast ->
     time_only Sample.strptime_iso entry = Some label ->
     ~ In label COMMUTE_TARGETS).
Proof.
  assert (Hrun : match_time_slots Sample.strptime_iso Demo.night_forecast
                   COMMUTE_TARGETS = Ok []) by reflexivity.
  split; [exact Hrun|].
  exact (match_time_slots_empty_iff Sample.strptime_iso Demo.night_forecast
           COMMUTE_TARGETS [] Hrun).
Defined.

Lemma assess_reasons_name_their_slot_witness :
  In (py "18:00: Heavy rain (2.0 mm)")
     (snd (assess_weather_conditions Sample.lower_ascii Sample.float_str_halves
             Sample.summary)) /\
  exists time data rest,
    In (time, data) Sample.summary /\
    py "18:00: Heavy rain (2.0 mm)" = time ++ py ": " ++ rest.
Proof.
  assert (Hin : In (py "18:00: Heavy rain (2.0 mm)")
                   (snd (assess_weather_conditions Sample.lower_ascii
                           Sample.float_str_halves Sample.summary)))
    by (left; reflexivity).
  split; [exact Hin|].
  exact (assess_reasons_name_their_slot Sample.lower_ascii Sample.float_str_halves
           Sample.summary _ Hin).
Defined.

Lemma assess_strict_thresholds_witness :
  exactly 5 (temp Demo.on_thresholds) /\
  exactly 20 (wind Demo.on_thresholds) /\
  exactly 3000 (visibility Demo.on_thresholds) /\
  ge_const (rain Demo.on_thresholds) 2 = false /\
  existsb (str_contains (Sample.lower_ascii (description Demo.on_thresholds)))
          (BAD_WEATHER ++ DANGEROUS_RAIN) = false /\
  assess_weather_conditions Sample.lower_ascii Sample.float_str_halves
    (Sample.summary ++ (py "12:00", Demo.on_thresholds) :: []) =
  assess_weather_conditions Sample.lower_ascii Sample.float_str_halves
    (Sample.summary ++ []).
Proof.
  assert (Ht : exactly 5 (temp Demo.on_thresholds)) by (left; reflexivity).
  assert (Hw : exactly 20 (wind Demo.on_thresholds)) by (right; reflexivity).
  assert (Hv : exactly 3000 (visibility Demo.on_thresholds)) by (left; reflexivity).
  assert (Hr : ge_const (rain Demo.on_thresholds) 2 = false) by reflexivity.
  assert (Hb : existsb (str_contains
                          (Sample.lower_ascii (description Demo.on_thresholds)))
                       (BAD_WEATHER ++ DANGEROUS_RAIN) = false) by reflexivity.
  repeat (split; [assumption|]).
  exact (assess_strict_thresholds Sample.lower_ascii Sample.float_str_halves
           Sample.summary [] (py "12:00") Demo.on_thresholds Ht Hw Hv Hr Hb).
Defined.

Lemma assess_nan_never_flagged_witness :
  temp Demo.all_nan = PyFloat nan /\
  wind Demo.all_nan = PyFloat nan /\
  visibility Demo.all_nan = PyFloat nan /\
  rain Demo.all_nan = PyFloat nan /\
  existsb (str_contains (Sample.lower_ascii (description Demo.all_nan)))
          (BAD_WEATHER ++ DANGEROUS_RAIN) = false /\
  assess_weather_conditions Sample.lower_ascii Sample.float_str_halves
    ([] ++ (py "09:00", Demo.all_nan) :: []) =
  assess_weather_conditions Sample.lower_ascii Sample.float_str_halves ([] ++ []).
Proof.
  repeat (split; [reflexivity|]).
  exact (assess_nan_never_flagged Sample.lower_ascii Sample.float_str_halves
           [] [] (py "09:00") Demo.all_nan eq_refl eq_refl eq_refl eq_refl eq_refl).
Defined.

Lemma missing_fields_are_never_flagged_witness :
  entry_visibility (Sample.entry_at "2024-03-04 06:00:00" (PyFloat 3%float) None) = None /\
  (entry_rain (Sample.entry_at "2024-03-04 06:00:00" (PyFloat 3%float) None) = None \/
   entry_rain (Sample.entry_at "2024-03-04 06:00:00" (PyFloat 3%float) None) = Some None) /\
  snd (assess_weather_conditions Sample.lower_ascii Sample.float_str_halves
         [(py "06:00",
           simplify_forecast
             (Sample.entry_at "2024-03-04 06:00:00" (PyFloat 3%float) None))]) =
  [py "06:00: Temperature too low (3.0" ++ [172%N; 8734%N] ++ py "C)"].
Proof.
  split; [reflexivity | split; [left; reflexivity|]].
  exact (proj2 (proj2
    (missing_fields_are_never_flagged Sample.lower_ascii Sample.float_str_halves
       (py "06:00") (Sample.entry_at "2024-03-04 06:00:00" (PyFloat 3%float) None)
       eq_refl (or_introl eq_refl)))).
Defined.

Lemma assess_dangerous_phrase_flagged_witness :
  In (py "12:00", Sample.snowy_noon) [(py "12:00", Sample.snowy_noon)] /\
  In (py "snow") (BAD_WEATHER ++ DANGEROUS_RAIN) /\
  str_contains (Sample.lower_ascii (description Sample.snowy_noon)) (py "snow") = true /\
  In (py "12:00: Dangerous weather - light snow")
     (snd (assess_weather_conditions Sample.lower_ascii Sample.float_str_halves
             [(py "12:00", Sample.snowy_noon)])) /\
  fst (assess_weather_conditions Sample.lower_ascii Sample.float_str_halves
         [(py "12:00", Sample.snowy_noon)]) = false.
Proof.
  assert (Hin : In (py "12:00", Sample.snowy_noon) [(py "12:00", Sample.snowy_noon)])
    by (left; reflexivity).
  assert (Hphrase : In (py "snow") (BAD_WEATHER ++ DANGEROUS_RAIN))
    by (left; reflexivity).
  split; [exact Hin | split; [exact Hphrase | split; [reflexivity|]]].
  exact (assess_dangerous_phrase_flagged Sample.lower_ascii Sample.float_str_halves
           [(py "12:00", Sample.snowy_noon)] (py "12:00") Sample.snowy_noon (py "snow")
           Hin Hphrase eq_refl).
Defined.

Lemma decision_line_solid_witness :
  decision_line (py "Fine." ++ [LF] ++ py " [SAFE] " ++ [LF]) = Ok (py "[SAFE]") /\
  py "[SAFE]" <> [] /\ strip (py "[SAFE]") = py "[SAFE]" /\
  starts_solid (py "[SAFE]") = true.
Proof.
  split; [reflexivity|].
  exact (decision_line_solid (py "Fine." ++ [LF] ++ py " [SAFE] " ++ [LF])
           (py "[SAFE]") eq_refl).
Defined.

Lemma tag_after_line_feed_removed_witness :
  forallb isspace (py " ") = true /\ no_LF (py " ") = true /\
  extract_decision (py " Dry roads, light wind. " ++ LF :: py "[SAFE]" ++ py " ") =
    Ok (SAFE, {| subject := subject_yes; body := py "Dry roads, light wind." |}) /\
  extract_decision (py " Dry roads, light wind. " ++ LF :: py "[NOT SAFE]" ++ py " ") =
    Ok (NOT_SAFE, {| subject := subject_no; body := py "Dry roads, light wind." |}).
Proof.
  split; [reflexivity | split; [reflexivity|]].
  exact (tag_after_line_feed_removed (py " Dry roads, light wind. ") (py " ")
           eq_refl eq_refl).
Defined.

Lemma no_line_feed_keeps_tag_witness :
  no_LF (py "Dry roads." ++ [CR] ++ py "[SAFE]") = true /\
  extract_decision (py "Dry roads." ++ [CR] ++ py "[SAFE]") =
    Ok (SAFE, {| subject := subject_yes;
                 body := py "Dry roads." ++ [CR] ++ py "[SAFE]" |}) /\
  SAFE <> UNCLEAR /\
  py "Dry roads." ++ [CR] ++ py "[SAFE]" = strip (py "Dry roads." ++ [CR] ++ py "[SAFE]").
Proof.
  assert (Hne : SAFE <> UNCLEAR) by discriminate.
  split; [reflexivity | split; [reflexivity | split; [exact Hne|]]].
  exact (no_line_feed_keeps_tag (py "Dry roads." ++ [CR] ++ py "[SAFE]") SAFE
           {| subject := subject_yes;
              body := py "Dry roads." ++ [CR] ++ py "[SAFE]" |}
           eq_refl eq_refl Hne).
Defined.

Lemma decision_depends_on_last_line_witness :
  solid_line (py "Stay home today.") /\
  forallb isspace (py "  ") = true /\
  decision_of (ending_in (Some (py "[SAFE]", BreakLF)) (py "Stay home today." ++ py "  "))
  = Ok UNCLEAR.
Proof.
  assert (Hsolid : solid_line (py "Stay home today.")) by (repeat split).
  split; [exact Hsolid | split; [reflexivity|]].
  exact (decision_depends_on_last_line (Some (py "[SAFE]", BreakLF))
           (py "Stay home today.") (py "  ") Hsolid eq_refl).
Defined.

Lemma empty_forecast_is_fetch_failure_witness :
  forecast_request (Sample.world (Some []) (Completed (py "unused"))) = Some [] /\
  Sample.main_iso (Sample.world (Some []) (Completed (py "unused"))) =
  ([FetchForecast; SendEmail no_forecast_note], Ok tt).
Proof.
  split; [reflexivity|].
  exact (empty_forecast_is_fetch_failure Sample.strptime_iso Sample.lower_ascii
           Sample.float_str_halves (Sample.world (Some []) (Completed (py "unused")))
           eq_refl).
Defined.

Lemma no_matching_slot_notification_witness :
  forecast_request (Sample.world (Some Demo.night_forecast) (Completed (py "unused")))
  = Some Demo.night_forecast /\
  Demo.night_forecast <> [] /\
  Forall (fun entry => time_only Sample.strptime_iso entry <> None) Demo.night_forecast /\
  (forall entry label,
     In entry Demo.night_forecast ->
     time_only Sample.strptime_iso entry = Some label ->
     ~ In label COMMUTE_TARGETS) /\
  Sample.main_iso (Sample.world (Some Demo.night_forecast) (Completed (py "unused"))) =
  ([FetchForecast; MatchSlots; SendEmail no_slots_note], Ok tt).
Proof.
  assert (Hne : Demo.night_forecast <> []) by discriminate.
  assert (Hparse : Forall (fun entry => time_only Sample.strptime_iso entry <> None)
                          Demo.night_forecast)
    by (repeat constructor; discriminate).
  assert (Hnone : forall entry label,
            In entry Demo.night_forecast ->
            time_only Sample.strptime_iso entry = Some label ->
            ~ In label COMMUTE_TARGETS).
  { intros entry label Hin Ht Hl.
    destruct Hin as [<- | [<- | []]]; injection Ht as <-;
      repeat (destruct Hl as [Hl | Hl]; [discriminate Hl|]); exact Hl. }
  split; [reflexivity | split; [exact Hne | split; [exact Hparse | split; [exact Hnone|]]]].
  exact (no_matching_slot_notification Sample.strptime_iso Sample.lower_ascii
           Sample.float_str_halves
           (Sample.world (Some Demo.night_forecast) (Completed (py "unused")))
           Demo.night_forecast eq_refl Hne Hparse Hnone).
Defined.

Lemma malformed_timestamp_aborts_run_witness :
  forecast_request (Sample.world (Some Demo.broken_forecast) (Completed (py "unused")))
  = Some Demo.broken_forecast /\
  Exists (fun entry => time_only Sample.strptime_iso entry = None) Demo.broken_forecast /\
  Sample.main_iso (Sample.world (Some Demo.broken_forecast) (Completed (py "unused"))) =
  ([FetchForecast; MatchSlots], Raise ValueError).
Proof.
  assert (Hex : Exists (fun entry => time_only Sample.strptime_iso entry = None)
                       Demo.broken_forecast)
    by (apply Exists_cons_tl, Exists_cons_hd; reflexivity).
  split; [reflexivity | split; [exact Hex|]].
  exact (malformed_timestamp_aborts_run Sample.strptime_iso Sample.lower_ascii
           Sample.float_str_halves
           (Sample.world (Some Demo.broken_forecast) (Completed (py "unused")))
           Demo.broken_forecast eq_refl Hex).
Defined.

Lemma completion_trailing_space_harmless_witness :
  blank (py " All clear today.") = false /\
  forallb isspace ([LF; LF] ++ py "  " ++ [CR; LF]) = true /\
  extract_decision
    (generated_text
       (Completed (py " All clear today." ++ LF :: py "[SAFE]"
                   ++ ([LF; LF] ++ py "  " ++ [CR; LF])))) =
    Ok (SAFE, {| subject := subject_yes; body := py "All clear today." |}) /\
  extract_decision
    (generated_text
       (Completed (py " All clear today." ++ LF :: py "[NOT SAFE]"
                   ++ ([LF; LF] ++ py "  " ++ [CR; LF])))) =
    Ok (NOT_SAFE, {| subject := subject_no; body := py "All clear today." |}).
Proof.
  split; [reflexivity | split; [reflexivity|]].
  exact (completion_trailing_space_harmless (py " All clear today.")
           ([LF; LF] ++ py "  " ++ [CR; LF]) eq_refl eq_refl).
Defined.
